(** * Task/comment tracking service: a model of [backend/app.py]

    The service keeps two process-wide dictionaries, [tasks] and [comments],
    fills them from [data.json] at start-up and rewrites that file after
    every mutation.  Handlers receive whatever [request.get_json()] produced,
    so payloads and stored records are dynamically typed JSON values; the
    model keeps them that way. *)

From Stdlib Require Import List String Ascii ZArith Bool Lia.
From Stdlib Require Import Permutation Sorted OrderedTypeEx.
Import ListNotations.
Open Scope string_scope.
Open Scope list_scope.

(** ** Python values

    What [json.loads] can produce: [None], booleans, integers, strings,
    lists and dictionaries keyed by strings.  A string is the sequence of
    its code points, each below 256.  Numbers with a fraction or an exponent
    are left out: no handler looks at a number beyond its truth value. *)

#[warnings="-register-all"]
Inductive value : Type :=
| VNone
| VBool (b : bool)
| VInt (z : Z)
| VStr (s : string)
| VList (l : list value)
| VDict (d : list (string * value)).

(** Exceptions the handlers can meet. *)
Inductive exn : Type :=
| AttributeError
| TypeError
| KeyError
| OSError
| JSONDecodeError.

Inductive result (A : Type) : Type :=
| Ok (a : A)
| Err (e : exn).
Arguments Ok {A} a.
Arguments Err {A} e.

(** ** Insertion-ordered dictionaries

    A Python [dict] iterates in insertion order and holds each key once.
    Assigning to a key that is present keeps its position; a new key goes to
    the end. *)

Section Dict.
Context {A : Type}.

Fixpoint dict_get (k : string) (d : list (string * A)) : option A :=
  match d with
  | [] => None
  | (k', v) :: d' => if String.eqb k k' then Some v else dict_get k d'
  end.

Fixpoint dict_set (k : string) (v : A) (d : list (string * A)) : list (string * A) :=
  match d with
  | [] => [(k, v)]
  | (k', v') :: d' =>
      if String.eqb k k' then (k, v) :: d' else (k', v') :: dict_set k v d'
  end.

Definition dict_del (k : string) (d : list (string * A)) : list (string * A) :=
  filter (fun kv => negb (String.eqb k (fst kv))) d.

Definition dict_mem (k : string) (d : list (string * A)) : bool :=
  match dict_get k d with Some _ => true | None => false end.

Definition dict_keys (d : list (string * A)) : list string := map fst d.
Definition dict_values (d : list (string * A)) : list A := map snd d.

End Dict.

(** ** Operations of the language the handlers rely on *)

Module Py.

(** [bool(v)], as used by [if not v]. *)
Definition truthy (v : value) : bool :=
  match v with
  | VNone => false
  | VBool b => b
  | VInt z => negb (Z.eqb z 0)
  | VStr s => negb (String.eqb s "")
  | VList l => match l with [] => false | _ => true end
  | VDict d => match d with [] => false | _ => true end
  end.

(** Characters [str.strip()] removes, among code points below 256. *)
Definition is_space (c : ascii) : bool :=
  let n := nat_of_ascii c in
  (((9 <=? n) && (n <=? 13)) || ((28 <=? n) && (n <=? 32))
   || (n =? 133) || (n =? 160))%nat.

Fixpoint lstrip (s : string) : string :=
  match s with
  | EmptyString => EmptyString
  | String c s' => if is_space c then lstrip s' else s
  end.

Fixpoint rev_string (acc s : string) : string :=
  match s with
  | EmptyString => acc
  | String c s' => rev_string (String c acc) s'
  end.

Definition rstrip (s : string) : string :=
  rev_string EmptyString (lstrip (rev_string EmptyString s)).

Definition str_strip (s : string) : string := rstrip (lstrip s).

Fixpoint all_space (s : string) : bool :=
  match s with
  | EmptyString => true
  | String c s' => is_space c && all_space s'
  end.

(** [needle in hay] for two strings: substring search. *)
Fixpoint str_contains (needle hay : string) : bool :=
  String.prefix needle hay
  || match hay with
     | EmptyString => false
     | String _ hay' => str_contains needle hay'
     end.

(** [v == s] for a string [s]: only an equal string compares equal. *)
Definition eq_str (v : value) (s : string) : bool :=
  match v with
  | VStr s' => String.eqb s' s
  | _ => false
  end.

(** [k in c]. *)
Definition contains (k : string) (c : value) : result bool :=
  match c with
  | VDict d => Ok (dict_mem k d)
  | VList l => Ok (existsb (fun x => eq_str x k) l)
  | VStr s => Ok (str_contains k s)
  | VNone | VBool _ | VInt _ => Err TypeError
  end.

(** [c[k]] for a string key. *)
Definition getitem (c : value) (k : string) : result value :=
  match c with
  | VDict d => match dict_get k d with Some v => Ok v | None => Err KeyError end
  | _ => Err TypeError
  end.

(** [c.get(k, default)]. *)
Definition get (c : value) (k : string) (default : value) : result value :=
  match c with
  | VDict d => match dict_get k d with Some v => Ok v | None => Ok default end
  | _ => Err AttributeError
  end.

(** [c[k] = v]: the container after the assignment. *)
Definition setitem (c : value) (k : string) (v : value) : result value :=
  match c with
  | VDict d => Ok (VDict (dict_set k v d))
  | _ => Err TypeError
  end.

(** [c.pop(k)]: the removed value and the container afterwards. *)
Definition pop (c : value) (k : string) : result (value * value) :=
  match c with
  | VDict d =>
      match dict_get k d with
      | Some v => Ok (v, VDict (dict_del k d))
      | None => Err KeyError
      end
  | VList _ => Err TypeError
  | _ => Err AttributeError
  end.

(** [c.items()] and [c.values()]. *)
Definition items (c : value) : result (list (string * value)) :=
  match c with
  | VDict d => Ok d
  | _ => Err AttributeError
  end.

Definition values (c : value) : result (list value) :=
  match c with
  | VDict d => Ok (dict_values d)
  | _ => Err AttributeError
  end.

(** [len(c)]. *)
Definition len (c : value) : result nat :=
  match c with
  | VStr s => Ok (String.length s)
  | VList l => Ok (List.length l)
  | VDict d => Ok (List.length d)
  | VNone | VBool _ | VInt _ => Err TypeError
  end.

(** [v.strip()]: only strings have the method. *)
Definition strip (v : value) : result value :=
  match v with
  | VStr s => Ok (VStr (str_strip s))
  | _ => Err AttributeError
  end.

End Py.

(** ** Ordering and [list.sort]

    [list.sort] only ever asks [a < b].  Strings are ordered by code point,
    integers and booleans numerically; [None] and dictionaries are not
    ordered.  The element-wise order of lists is not modelled and reported
    as [TypeError] too: no record of the service carries a list as a
    timestamp. *)

Module PySort.

Definition numeric (v : value) : option Z :=
  match v with
  | VInt z => Some z
  | VBool b => Some (if b then 1%Z else 0%Z)
  | _ => None
  end.

Definition lt (a b : value) : result bool :=
  match a, b with
  | VStr s, VStr t => Ok (String.ltb s t)
  | _, _ =>
      match numeric a, numeric b with
      | Some x, Some y => Ok (Z.ltb x y)
      | _, _ => Err TypeError
      end
  end.

Section Keyed.
Context {A : Type}.

(** Stable ascending insertion into a list sorted by its first components:
    the new element, which stood before the others, goes in front of the
    first one that is not smaller than it. *)
Fixpoint insert (x : value * A) (l : list (value * A)) : result (list (value * A)) :=
  match l with
  | [] => Ok [x]
  | y :: l' =>
      match lt (fst y) (fst x) with
      | Err e => Err e
      | Ok true =>
          match insert x l' with
          | Ok r => Ok (y :: r)
          | Err e => Err e
          end
      | Ok false => Ok (x :: l)
      end
  end.

Fixpoint isort (l : list (value * A)) : result (list (value * A)) :=
  match l with
  | [] => Ok []
  | x :: l' =>
      match isort l' with
      | Ok s => insert x s
      | Err e => Err e
      end
  end.

(** The keys are computed for every element before any comparison. *)
Fixpoint decorate (key : A -> result value) (l : list A) : result (list (value * A)) :=
  match l with
  | [] => Ok []
  | x :: l' =>
      match key x with
      | Err e => Err e
      | Ok k =>
          match decorate key l' with
          | Ok r => Ok ((k, x) :: r)
          | Err e => Err e
          end
      end
  end.

(** [l.sort(key=key, reverse=reverse)]: with [reverse] the list is reversed,
    sorted in ascending order, and reversed again, which keeps elements
    with equal keys in their original order. *)
Definition sort (key : A -> result value) (reverse : bool) (l : list A) : result (list A) :=
  match decorate key l with
  | Err e => Err e
  | Ok d =>
      match isort (if reverse then rev d else d) with
      | Err e => Err e
      | Ok s => Ok (map snd (if reverse then rev s else s))
      end
  end.

End Keyed.

End PySort.

(** ** Handlers as programs over the process state

    A computation runs on a state [S] and either goes on with a value,
    leaves the enclosing function through [return], or raises.  The state
    reached so far is kept in all three cases: an exception does not roll
    back an assignment made before it. *)

Record response : Type := mkResponse { status : Z; body : value }.

Inductive outcome (A : Type) : Type :=
| Next (a : A)
| Return (r : response)
| Raise (e : exn).
Arguments Next {A} a.
Arguments Return {A} r.
Arguments Raise {A} e.

Definition M (S A : Type) : Type := S -> outcome A * S.

Definition ret {S A : Type} (a : A) : M S A := fun s => (Next a, s).

Definition bind {S A B : Type} (m : M S A) (f : A -> M S B) : M S B :=
  fun s =>
    match m s with
    | (Next a, s') => f a s'
    | (Return r, s') => (Return r, s')
    | (Raise e, s') => (Raise e, s')
    end.

Definition raise {S A : Type} (e : exn) : M S A := fun s => (Raise e, s).

(** [return jsonify(b), code] *)
Definition respond {S A : Type} (code : Z) (b : value) : M S A :=
  fun s => (Return (mkResponse code b), s).

Definition lift {S A : Type} (r : result A) : M S A :=
  match r with
  | Ok a => ret a
  | Err e => raise e
  end.

Definition get_state {S : Type} : M S S := fun s => (Next s, s).
Definition put_state {S : Type} (s : S) : M S unit := fun _ => (Next tt, s).
Definition modify {S : Type} (f : S -> S) : M S unit := fun s => (Next tt, f s).

(** [try: body except Exception as e: handler(e)] *)
Definition try_except {S A : Type} (m : M S A) (h : exn -> M S A) : M S A :=
  fun s =>
    match m s with
    | (Raise e, s') => h e s'
    | r => r
    end.

Definition when {S : Type} (c : bool) (m : M S unit) : M S unit :=
  if c then m else ret tt.

Declare Scope py_scope.
Delimit Scope py_scope with py.
Notation "x <- m ;; k" := (bind m (fun x => k))
  (at level 100, m at next level, right associativity) : py_scope.
Notation "m ;; k" := (bind m (fun _ => k))
  (at level 100, right associativity) : py_scope.
Open Scope py_scope.

(** [for x in l: body(x)] *)
Fixpoint for_each {S A : Type} (l : list A) (body : A -> M S unit) : M S unit :=
  match l with
  | [] => ret tt
  | x :: l' => body x ;; for_each l' body
  end.

(** [[x for x in l if cond(x)]], where [cond] may raise. *)
Fixpoint comprehension {A : Type} (cond : A -> result bool) (l : list A) : result (list A) :=
  match l with
  | [] => Ok []
  | x :: l' =>
      match cond x with
      | Err e => Err e
      | Ok b =>
          match comprehension cond l' with
          | Err e => Err e
          | Ok r => Ok (if b then x :: r else r)
          end
      end
  end.

(** What a view function hands back to the framework: the response of its
    [return], or the exception that escaped it. *)
Definition view {S : Type} (m : M S unit) (s : S) : result response * S :=
  match m s with
  | (Return r, s') => (Ok r, s')
  | (Raise e, s') => (Err e, s')
  | (Next _, s') => (Err TypeError, s')
  end.

(** ** The process and its surroundings

    [json.dump] and [json.load] belong to the language's library; the file
    holds a text of some type [text], written by [dumps] and read back by
    [loads].  The clock and the identifier generator are the host's: their
    n-th answers are [clock n] and [uuid_source n]. *)

Inductive event : Type :=
| Loaded (n_tasks n_comments : nat)
| ErrorLoading (e : exn)
| NoDataFile
| ErrorSaving (e : exn).

Record host_env : Type := mkHost {
  clock : nat -> string;
  uuid_source : nat -> string;
  readable : bool;
  writable : bool
}.

Section App.
Context {text : Type}.
Variable dumps : value -> text.
Variable loads : text -> option value.

Record world : Type := mkWorld {
  tasks : value;
  comments : value;
  data_file : option text;
  stdout : list event;
  ticks : nat;
  drawn : nat;
  host : host_env
}.

Definition set_tasks (v : value) (w : world) : world :=
  mkWorld v (comments w) (data_file w) (stdout w) (ticks w) (drawn w) (host w).
Definition set_comments (v : value) (w : world) : world :=
  mkWorld (tasks w) v (data_file w) (stdout w) (ticks w) (drawn w) (host w).
Definition set_data_file (f : option text) (w : world) : world :=
  mkWorld (tasks w) (comments w) f (stdout w) (ticks w) (drawn w) (host w).
Definition add_stdout (e : event) (w : world) : world :=
  mkWorld (tasks w) (comments w) (data_file w) (stdout w ++ [e]) (ticks w) (drawn w) (host w).
Definition tick (w : world) : world :=
  mkWorld (tasks w) (comments w) (data_file w) (stdout w) (S (ticks w)) (drawn w) (host w).
Definition draw (w : world) : world :=
  mkWorld (tasks w) (comments w) (data_file w) (stdout w) (ticks w) (S (drawn w)) (host w).

Definition print (e : event) : M world unit := modify (add_stdout e).

(** [datetime.now(timezone.utc).isoformat()]: one reading of the clock. *)
Definition now : M world string :=
  fun w => (Next (clock (host w) (ticks w)), tick w).

(** [str(uuid.uuid4())] *)
Definition uuid4 : M world string :=
  fun w => (Next (uuid_source (host w) (drawn w)), draw w).

(** *** Persistence *)

Definition load_data : M world unit :=
  w <- get_state ;;
  match data_file w with
  | Some t =>
      try_except
        ((if readable (host w) then ret tt else raise OSError) ;;
         data <- match loads t with
                 | Some v => ret v
                 | None => raise JSONDecodeError
                 end ;;
         ts <- lift (Py.get data "tasks" (VDict [])) ;;
         modify (set_tasks ts) ;;
         cs <- lift (Py.get data "comments" (VDict [])) ;;
         modify (set_comments cs) ;;
         n <- lift (Py.len ts) ;;
         m <- lift (Py.len cs) ;;
         print (Loaded n m))
        (fun e =>
           print (ErrorLoading e) ;;
           modify (set_tasks (VDict [])) ;;
           modify (set_comments (VDict [])))
  | None => print NoDataFile
  end.

Definition save_data : M world unit :=
  try_except
    (w <- get_state ;;
     if writable (host w)
     then put_state
            (set_data_file
               (Some (dumps (VDict [("tasks", tasks w); ("comments", comments w)]))) w)
     else raise OSError)
    (fun e => print (ErrorSaving e)).

(** *** Access to the two global dictionaries *)

(** [tasks.get(task_id)] *)
Definition tasks_get (task_id : string) : M world value :=
  w <- get_state ;; lift (Py.get (tasks w) task_id VNone).

(** [comments.get(comment_id)] *)
Definition comments_get (comment_id : string) : M world value :=
  w <- get_state ;; lift (Py.get (comments w) comment_id VNone).

(** [tasks[task_id] = task] *)
Definition tasks_setitem (task_id : string) (task : value) : M world unit :=
  w <- get_state ;;
  ts <- lift (Py.setitem (tasks w) task_id task) ;;
  put_state (set_tasks ts w).

(** [comments[comment_id] = comment] *)
Definition comments_setitem (comment_id : string) (comment : value) : M world unit :=
  w <- get_state ;;
  cs <- lift (Py.setitem (comments w) comment_id comment) ;;
  put_state (set_comments cs w).

(** [tasks.pop(task_id)] *)
Definition tasks_pop (task_id : string) : M world value :=
  w <- get_state ;;
  p <- lift (Py.pop (tasks w) task_id) ;;
  put_state (set_tasks (snd p) w) ;;
  ret (fst p).

(** [comments.pop(comment_id)] *)
Definition comments_pop (comment_id : string) : M world value :=
  w <- get_state ;;
  p <- lift (Py.pop (comments w) comment_id) ;;
  put_state (set_comments (snd p) w) ;;
  ret (fst p).

(** [task[field] = v], where [task] is the object [tasks.get(task_id)]
    returned: the record stored under [task_id] is the one that changes. *)
Definition task_setitem (task_id field : string) (v : value) : M world unit :=
  task <- tasks_get task_id ;;
  task' <- lift (Py.setitem task field v) ;;
  tasks_setitem task_id task'.

(** [comment[field] = v], with [comment] the object [comments.get(comment_id)]
    returned. *)
Definition comment_setitem (comment_id field : string) (v : value) : M world unit :=
  comment <- comments_get comment_id ;;
  comment' <- lift (Py.setitem comment field v) ;;
  comments_setitem comment_id comment'.

Definition error (msg : string) : value := VDict [("error", VStr msg)].

(** *** Task handlers *)

(** [get_comments_by_task] *)
Definition get_comments_by_task (task_id : string) : M world (list value) :=
  w <- get_state ;;
  cs <- lift (Py.values (comments w)) ;;
  lift (comprehension
          (fun comment =>
             match Py.getitem comment "task_id" with
             | Ok t => Ok (Py.eq_str t task_id)
             | Err e => Err e
             end) cs).

(** [GET /api/tasks] *)
Definition get_all_tasks : M world unit :=
  w <- get_state ;;
  ts <- lift (Py.values (tasks w)) ;;
  respond 200 (VList ts).

(** [POST /api/tasks] *)
Definition create_task (data : value) : M world unit :=
  missing <- (if negb (Py.truthy data) then ret true
              else (b <- lift (Py.contains "title" data) ;; ret (negb b))) ;;
  when missing (respond 400 (error "Title is required")) ;;
  task_id <- uuid4 ;;
  title <- lift (Py.getitem data "title") ;;
  description <- lift (Py.get data "description" (VStr "")) ;;
  created_at <- now ;;
  let task := VDict [("id", VStr task_id);
                     ("title", title);
                     ("description", description);
                     ("created_at", VStr created_at)] in
  tasks_setitem task_id task ;;
  save_data ;;
  respond 201 task.

(** [GET /api/tasks/<task_id>] *)
Definition get_task (task_id : string) : M world unit :=
  task <- tasks_get task_id ;;
  when (negb (Py.truthy task)) (respond 404 (error "Task not found")) ;;
  respond 200 task.

(** [PUT /api/tasks/<task_id>] *)
Definition update_task (task_id : string) (data : value) : M world unit :=
  task <- tasks_get task_id ;;
  when (negb (Py.truthy task)) (respond 404 (error "Task not found")) ;;
  when (negb (Py.truthy data)) (respond 400 (error "No data provided")) ;;
  has_title <- lift (Py.contains "title" data) ;;
  when has_title
    (title <- lift (Py.getitem data "title") ;;
     stripped <- lift (Py.strip title) ;;
     when (negb (Py.truthy stripped)) (respond 400 (error "Title cannot be empty")) ;;
     title <- lift (Py.getitem data "title") ;;
     task_setitem task_id "title" title) ;;
  has_description <- lift (Py.contains "description" data) ;;
  when has_description
    (description <- lift (Py.getitem data "description") ;;
     task_setitem task_id "description" description) ;;
  save_data ;;
  task <- tasks_get task_id ;;
  respond 200 task.

(** [DELETE /api/tasks/<task_id>] *)
Definition delete_task (task_id : string) : M world unit :=
  task <- tasks_get task_id ;;
  when (negb (Py.truthy task)) (respond 404 (error "Task not found")) ;;
  deleted_task <- tasks_pop task_id ;;
  w <- get_state ;;
  its <- lift (Py.items (comments w)) ;;
  task_comments <- lift (comprehension
                           (fun kc =>
                              match Py.getitem (snd kc) "task_id" with
                              | Ok t => Ok (Py.eq_str t task_id)
                              | Err e => Err e
                              end) its) ;;
  let task_comment_ids := map fst task_comments in
  for_each task_comment_ids (fun c_id => comments_pop c_id ;; ret tt) ;;
  save_data ;;
  respond 200 (VDict [("message", VStr "Task deleted successfully");
                      ("task", deleted_task)]).

(** *** Comment handlers *)

(** [POST /api/tasks/<task_id>/comments] *)
Definition create_comment (task_id : string) (data : value) : M world unit :=
  missing <- (if negb (Py.truthy data) then ret true
              else (b <- lift (Py.contains "content" data) ;; ret (negb b))) ;;
  when missing (respond 400 (error "Content is required")) ;;
  content <- lift (Py.getitem data "content") ;;
  stripped <- lift (Py.strip content) ;;
  when (negb (Py.truthy stripped)) (respond 400 (error "Content cannot be empty")) ;;
  comment_id <- uuid4 ;;
  content <- lift (Py.getitem data "content") ;;
  author <- lift (Py.get data "author" (VStr "Anonymous")) ;;
  created_at <- now ;;
  updated_at <- now ;;
  let comment := VDict [("id", VStr comment_id);
                        ("task_id", VStr task_id);
                        ("content", content);
                        ("author", author);
                        ("created_at", VStr created_at);
                        ("updated_at", VStr updated_at)] in
  comments_setitem comment_id comment ;;
  save_data ;;
  respond 201 comment.

(** [GET /api/tasks/<task_id>/comments] *)
Definition get_comments (task_id : string) : M world unit :=
  task_comments <- get_comments_by_task task_id ;;
  task_comments <- lift (PySort.sort (fun x => Py.getitem x "created_at") true
                           task_comments) ;;
  respond 200 (VDict [("task_id", VStr task_id);
                      ("comments", VList task_comments);
                      ("count", VInt (Z.of_nat (List.length task_comments)))]).

(** [GET /api/comments/<comment_id>] *)
Definition get_comment (comment_id : string) : M world unit :=
  comment <- comments_get comment_id ;;
  when (negb (Py.truthy comment)) (respond 404 (error "Comment not found")) ;;
  respond 200 comment.

(** [PUT /api/comments/<comment_id>] *)
Definition update_comment (comment_id : string) (data : value) : M world unit :=
  comment <- comments_get comment_id ;;
  when (negb (Py.truthy comment)) (respond 404 (error "Comment not found")) ;;
  when (negb (Py.truthy data)) (respond 400 (error "No data provided")) ;;
  has_content <- lift (Py.contains "content" data) ;;
  when has_content
    (content <- lift (Py.getitem data "content") ;;
     stripped <- lift (Py.strip content) ;;
     when (negb (Py.truthy stripped)) (respond 400 (error "Content cannot be empty")) ;;
     content <- lift (Py.getitem data "content") ;;
     comment_setitem comment_id "content" content) ;;
  has_author <- lift (Py.contains "author" data) ;;
  when has_author
    (author <- lift (Py.getitem data "author") ;;
     comment_setitem comment_id "author" author) ;;
  updated_at <- now ;;
  comment_setitem comment_id "updated_at" (VStr updated_at) ;;
  save_data ;;
  comment <- comments_get comment_id ;;
  respond 200 comment.

(** [DELETE /api/comments/<comment_id>] *)
Definition delete_comment (comment_id : string) : M world unit :=
  comment <- comments_get comment_id ;;
  when (negb (Py.truthy comment)) (respond 404 (error "Comment not found")) ;;
  deleted_comment <- comments_pop comment_id ;;
  save_data ;;
  respond 200 (VDict [("message", VStr "Comment deleted successfully");
                      ("comment", deleted_comment)]).

(** [GET /api/health] *)
Definition health_check : M world unit :=
  timestamp <- now ;;
  respond 200 (VDict [("status", VStr "healthy"); ("timestamp", VStr timestamp)]).

End App.

Arguments world text : clear implicits.
Arguments save_data : simpl never.
Arguments load_data : simpl never.

(** ** The routes

    The [@app.route] decorators bind eleven pairs of method and path to the
    handlers.  A request is given here by the route it matched, the
    identifier in its path and the body [request.get_json()] returned;
    matching the URL and parsing the body are the framework's. *)

Inductive request : Type :=
| GetAllTasks
| CreateTask (data : value)
| GetTask (task_id : string)
| UpdateTask (task_id : string) (data : value)
| DeleteTask (task_id : string)
| CreateComment (task_id : string) (data : value)
| GetComments (task_id : string)
| GetComment (comment_id : string)
| UpdateComment (comment_id : string) (data : value)
| DeleteComment (comment_id : string)
| HealthCheck.

Definition dispatch {text : Type} (dumps : value -> text) (rq : request) :
    M (world text) unit :=
  match rq with
  | GetAllTasks => get_all_tasks
  | CreateTask data => create_task dumps data
  | GetTask task_id => get_task task_id
  | UpdateTask task_id data => update_task dumps task_id data
  | DeleteTask task_id => delete_task dumps task_id
  | CreateComment task_id data => create_comment dumps task_id data
  | GetComments task_id => get_comments task_id
  | GetComment comment_id => get_comment comment_id
  | UpdateComment comment_id data => update_comment dumps comment_id data
  | DeleteComment comment_id => delete_comment dumps comment_id
  | HealthCheck => health_check
  end.

(** One request served by the process in state [w]. *)
Definition serve {text : Type} (dumps : value -> text) (rq : request)
    (w : world text) : result response * world text :=
  view (dispatch dumps rq) w.

(** Routes registered for [GET]. *)
Definition is_read (rq : request) : bool :=
  match rq with
  | GetAllTasks | GetTask _ | GetComments _ | GetComment _ | HealthCheck => true
  | _ => false
  end.

(** Routes registered for [POST]. *)
Definition is_create (rq : request) : bool :=
  match rq with
  | CreateTask _ | CreateComment _ _ => true
  | _ => false
  end.


(** ** Vocabulary of the statements *)

(** The field [f] of a record, when the record is a dictionary that has it. *)
Definition field (f : string) (v : value) : option value :=
  match v with
  | VDict d => dict_get f d
  | _ => None
  end.

Definition is_str (v : value) : bool :=
  match v with
  | VStr _ => true
  | _ => false
  end.

(** The comment belongs to the task [task_id]. *)
Definition of_task (task_id : string) (c : value) : bool :=
  match field "task_id" c with
  | Some t => Py.eq_str t task_id
  | None => false
  end.

Definition created_at_of (c : value) : string :=
  match field "created_at" c with
  | Some (VStr s) => s
  | _ => EmptyString
  end.

(** The text of a key, for keys that are strings. *)
Definition str_of (v : value) : string :=
  match v with
  | VStr s => s
  | _ => EmptyString
  end.

(** Ascending order of decorated elements whose keys are strings. *)
Definition key_le {A : Type} (p q : value * A) : Prop :=
  String.leb (str_of (fst p)) (str_of (fst q)) = true.

(** [a] may stand before [b] in a listing that shows the most recent first. *)
Definition not_older (a b : value) : Prop :=
  String.leb (created_at_of b) (created_at_of a) = true.

(** The comment was created at the instant [k]. *)
Definition created_at_is (k : string) (c : value) : bool :=
  String.eqb (created_at_of c) k.

(** Records as the handlers build them: a task is a non-empty dictionary; a
    comment is a dictionary with a [task_id] and a textual [created_at]. *)
Definition task_ok (t : value) : bool :=
  match t with
  | VDict (_ :: _) => true
  | _ => false
  end.

Definition comment_ok (c : value) : bool :=
  match field "task_id" c, field "created_at" c with
  | Some _, Some (VStr _) => true
  | _, _ => false
  end.

Fixpoint distinct (l : list string) : bool :=
  match l with
  | [] => true
  | k :: l' => negb (existsb (String.eqb k) l') && distinct l'
  end.

Definition tasks_ok (ts : list (string * value)) : bool :=
  distinct (dict_keys ts) && forallb task_ok (dict_values ts).

Definition comments_ok (cs : list (string * value)) : bool :=
  distinct (dict_keys cs) && forallb comment_ok (dict_values cs).

(** The state of a process whose two globals are dictionaries of such
    records. *)
Definition store_ok {text : Type} (w : world text) : bool :=
  match tasks w, comments w with
  | VDict ts, VDict cs => tasks_ok ts && comments_ok cs
  | _, _ => false
  end.

(** A computation that keeps the store well-formed, however it ends. *)
Definition preserves {text A : Type} (m : M (world text) A) : Prop :=
  forall w, store_ok w = true -> store_ok (snd (m w)) = true.

(** The dictionary after popping the identifiers [ids] one by one. *)
Definition pop_all (ids : list string) (cs : list (string * value)) :
    list (string * value) :=
  fold_left (fun d k => dict_del k d) ids cs.

(** The world [save_data] leaves behind. *)
Definition after_save {text : Type} (dumps : value -> text) (w : world text) : world text :=
  if writable (host w)
  then set_data_file
         (Some (dumps (VDict [("tasks", tasks w); ("comments", comments w)]))) w
  else add_stdout (ErrorSaving OSError) w.

(** The data file holds the dump of exactly the two dictionaries in memory. *)
Definition in_sync {text : Type} (dumps : value -> text) (w : world text) : Prop :=
  data_file w
  = Some (dumps (VDict [("tasks", tasks w); ("comments", comments w)])).

(** The messages of the error bodies. *)
Definition not_found_messages : list string :=
  ["Task not found"; "Comment not found"].

Definition validation_messages : list string :=
  ["Title is required"; "No data provided"; "Title cannot be empty";
   "Content is required"; "Content cannot be empty"].


(** A fresh process: the module is imported again, both globals start as
    empty dictionaries, and [load_data()] runs. *)
Definition restart {text : Type} (loads : text -> option value) (w : world text) : world text :=
  snd (load_data loads (set_comments (VDict []) (set_tasks (VDict []) w))).

(** A body that is absent or empty, or a JSON object without the key. *)
Definition lacks (key : string) (data : value) : bool :=
  negb (Py.truthy data)
  || match data with
     | VDict p => negb (dict_mem key p)
     | _ => false
     end.






(** [d'] has the keys of [d] in the same order, and each record keeps the
    listed fields. *)
Definition same_identity (fields : list string) (d d' : list (string * value)) : Prop :=
  dict_keys d' = dict_keys d
  /\ forall k t, dict_get k d = Some t ->
       exists t', dict_get k d' = Some t'
                  /\ forall f, In f fields -> field f t' = field f t.

(** What an update request asks of a text field: nothing when the key is
    absent, otherwise a string that is not blank. *)
Definition passes_validation (key : string) (payload : list (string * value)) : Prop :=
  match dict_get key payload with
  | None => True
  | Some v => exists s, v = VStr s /\ Py.str_strip s <> EmptyString
  end.

(** ** Sample data *)

Module Sample.

Definition wall_clock (n : nat) : string :=
  match n with
  | 0 => "2024-05-01T10:00:00.000001+00:00"
  | 1 => "2024-05-01T10:00:00.000007+00:00"
  | 2 => "2024-05-01T10:00:01.250000+00:00"
  | _ => "2024-05-01T10:00:02.000000+00:00"
  end.

Definition ids (n : nat) : string :=
  match n with
  | 0 => "id-a"
  | 1 => "id-b"
  | 2 => "id-c"
  | _ => "id-z"
  end.

Definition machine : host_env := mkHost wall_clock ids true true.

(** The text of the file is the document itself. *)
Definition dumps (v : value) : value := v.
Definition loads (t : value) : option value := Some t.

Definition empty : world value := mkWorld (VDict []) (VDict []) None [] 0 0 machine.

Definition a_task : value :=
  VDict [("id", VStr "T1"); ("title", VStr "Write report");
         ("description", VStr "draft"); ("created_at", VStr "2024-04-30T08:00:00+00:00")].

Definition comment (cid tid txt at_ : string) : value :=
  VDict [("id", VStr cid); ("task_id", VStr tid); ("content", VStr txt);
         ("author", VStr "Anonymous"); ("created_at", VStr at_);
         ("updated_at", VStr at_)].

Definition some_comments : list (string * value) :=
  [("C1", comment "C1" "T1" "first" "2024-04-30T09:00:00+00:00");
   ("C2", comment "C2" "T2" "elsewhere" "2024-04-30T09:30:00+00:00");
   ("C3", comment "C3" "T1" "second" "2024-04-30T10:00:00+00:00")].

Definition busy : world value :=
  mkWorld (VDict [("T1", a_task)]) (VDict some_comments) None [] 0 0 machine.


End Sample.

(** * Facts *)

(** ** Dictionaries *)

Section DictFacts.
Context {A : Type}.
Implicit Types (d : list (string * A)) (k : string).

Lemma dict_get_set_eq k (v : A) d : dict_get k (dict_set k v d) = Some v.
Proof.
  induction d as [|[k' v'] d IH]; simpl.
  - now rewrite String.eqb_refl.
  - destruct (String.eqb k k') eqn:E; simpl.
    + now rewrite String.eqb_refl.
    + now rewrite E.
Qed.

Lemma dict_get_set_ne k k' (v : A) d :
  k <> k' -> dict_get k' (dict_set k v d) = dict_get k' d.
Proof.
  intros Hne. apply String.eqb_neq in Hne. rewrite String.eqb_sym in Hne.
  induction d as [|[k0 v0] d IH]; simpl.
  - now rewrite Hne.
  - destruct (String.eqb k k0) eqn:E; simpl.
    + apply String.eqb_eq in E. subst k0. now rewrite Hne.
    + now rewrite IH.
Qed.

Lemma dict_get_del_eq k d : dict_get k (dict_del k d) = None.
Proof.
  unfold dict_del. induction d as [|[k' v'] d IH]; simpl; [reflexivity|].
  destruct (String.eqb k k') eqn:E; simpl; [assumption|].
  now rewrite E.
Qed.

Lemma dict_get_del_ne k k' d :
  k <> k' -> dict_get k' (dict_del k d) = dict_get k' d.
Proof.
  intros Hne. unfold dict_del.
  induction d as [|[k0 v0] d IH]; simpl; [reflexivity|].
  destruct (String.eqb k k0) eqn:E; simpl.
  - apply String.eqb_eq in E. subst k0.
    apply String.eqb_neq in Hne. rewrite String.eqb_sym in Hne. now rewrite Hne.
  - now rewrite IH.
Qed.

Lemma dict_get_In k (v : A) d : dict_get k d = Some v -> In (k, v) d.
Proof.
  induction d as [|[k' v'] d IH]; simpl; [discriminate|].
  destruct (String.eqb k k') eqn:E.
  - apply String.eqb_eq in E. intros [= ->]. left. now subst.
  - intros H. right. now apply IH.
Qed.

Lemma existsb_eqb_In k (l : list string) : existsb (String.eqb k) l = true <-> In k l.
Proof.
  rewrite existsb_exists. split.
  - intros [x [Hx E]]. apply String.eqb_eq in E. now subst.
  - intros H. exists k. split; [assumption | apply String.eqb_refl].
Qed.

Lemma distinct_NoDup (l : list string) : distinct l = true <-> NoDup l.
Proof.
  induction l as [|k l IH]; simpl.
  - split; [constructor | reflexivity].
  - rewrite andb_true_iff, negb_true_iff, IH. split.
    + intros [Hk Hl]. constructor; [|assumption].
      intros Hin. apply existsb_eqb_In in Hin. congruence.
    + intros H. inversion H as [|? ? Hk Hl]; subst. split; [|assumption].
      destruct (existsb (String.eqb k) l) eqn:E; [|reflexivity].
      apply existsb_eqb_In in E. contradiction.
Qed.

Lemma dict_keys_set_absent k (v : A) d :
  dict_get k d = None -> dict_keys (dict_set k v d) = dict_keys d ++ [k].
Proof.
  induction d as [|[k' v'] d IH]; simpl; [reflexivity|].
  destruct (String.eqb k k') eqn:E; [discriminate|].
  intros H. simpl. f_equal. now apply IH.
Qed.

Lemma dict_keys_set_present k (v : A) d :
  dict_get k d <> None -> dict_keys (dict_set k v d) = dict_keys d.
Proof.
  induction d as [|[k' v'] d IH]; simpl; [congruence|].
  destruct (String.eqb k k') eqn:E; simpl.
  - apply String.eqb_eq in E. now subst.
  - intros H. f_equal. now apply IH.
Qed.

Lemma dict_get_None_keys k d : dict_get k d = None <-> ~ In k (dict_keys d).
Proof.
  induction d as [|[k' v'] d IH]; simpl.
  - tauto.
  - destruct (String.eqb k k') eqn:E.
    + apply String.eqb_eq in E. subst. split; [discriminate | tauto].
    + apply String.eqb_neq in E. rewrite IH. split.
      * intros H [H1|H1]; [congruence | tauto].
      * tauto.
Qed.

Lemma distinct_dict_set k (v : A) d :
  distinct (dict_keys d) = true -> distinct (dict_keys (dict_set k v d)) = true.
Proof.
  intros Hd. destruct (dict_get k d) eqn:E.
  - rewrite dict_keys_set_present; [assumption | congruence].
  - rewrite dict_keys_set_absent by assumption.
    apply distinct_NoDup. apply distinct_NoDup in Hd.
    apply dict_get_None_keys in E.
    apply NoDup_rev in Hd. rewrite <- (rev_involutive (_ ++ _)).
    apply NoDup_rev. rewrite rev_app_distr. simpl. constructor; [|assumption].
    now rewrite <- in_rev.
Qed.

Lemma dict_keys_filter (f : string * A -> bool) d :
  NoDup (dict_keys d) -> NoDup (dict_keys (filter f d)).
Proof.
  unfold dict_keys. induction d as [|[k v] d IH]; simpl; intros H; [constructor|].
  inversion H as [|? ? Hk Hd]; subst.
  destruct (f (k, v)); simpl; [|now apply IH].
  constructor; [|now apply IH].
  intros Hin. apply Hk. apply in_map_iff in Hin. destruct Hin as [[k' v'] [E Hin]].
  apply filter_In in Hin. apply in_map_iff. exists (k', v'). tauto.
Qed.

Lemma forallb_values_filter (p : A -> bool) (f : string * A -> bool) d :
  forallb p (dict_values d) = true -> forallb p (dict_values (filter f d)) = true.
Proof.
  unfold dict_values. induction d as [|[k v] d IH]; simpl; [reflexivity|].
  rewrite andb_true_iff. intros [H1 H2].
  destruct (f (k, v)); simpl; [rewrite H1|]; now apply IH.
Qed.

Lemma forallb_values_set (p : A -> bool) k (v : A) d :
  p v = true -> forallb p (dict_values d) = true ->
  forallb p (dict_values (dict_set k v d)) = true.
Proof.
  unfold dict_values. intros Hv. induction d as [|[k' v'] d IH]; simpl.
  - now rewrite Hv.
  - rewrite andb_true_iff. intros [H1 H2].
    destruct (String.eqb k k'); simpl; [now rewrite Hv | rewrite H1; now apply IH].
Qed.

Lemma forallb_values_get (p : A -> bool) k (v : A) d :
  forallb p (dict_values d) = true -> dict_get k d = Some v -> p v = true.
Proof.
  intros H E. apply dict_get_In in E. rewrite forallb_forall in H.
  apply H. unfold dict_values. apply in_map_iff. now exists (k, v).
Qed.

End DictFacts.

Arguments dict_get {A} k d : simpl nomatch.
Arguments dict_set {A} k v d : simpl nomatch.
Arguments dict_del {A} k d : simpl never.
Arguments Py.truthy v : simpl nomatch.

(** ** Running the handlers *)

Ltac step :=
  unfold view, tasks_get, comments_get, tasks_setitem, comments_setitem,
    tasks_pop, comments_pop, task_setitem, comment_setitem, now, uuid4, print,
    when, bind, lift, ret, raise, respond, get_state, put_state, modify;
  simpl.

(** Unfold, then rewrite with the facts at hand, for as long as either makes
    progress. *)
Ltac run_with tac := repeat progress (step; tac).

Lemma truthy_record (rec : list (string * value)) :
  rec <> [] -> Py.truthy (VDict rec) = true.
Proof. destruct rec; [contradiction | reflexivity]. Qed.

Section AppFacts.
Context {text : Type}.
Variable dumps : value -> text.
Variable loads : text -> option value.
Implicit Types (w : world text) (ts cs : list (string * value)).

Lemma save_data_run w : save_data dumps w = (Next tt, after_save dumps w).
Proof.
  unfold save_data, after_save, try_except. step.
  destruct (writable (host w)); reflexivity.
Qed.

Lemma after_save_tasks w : tasks (after_save dumps w) = tasks w.
Proof. unfold after_save. now destruct (writable (host w)). Qed.

Lemma after_save_comments w : comments (after_save dumps w) = comments w.
Proof. unfold after_save. now destruct (writable (host w)). Qed.

Lemma after_save_file w :
  writable (host w) = true ->
  data_file (after_save dumps w)
  = Some (dumps (VDict [("tasks", tasks w); ("comments", comments w)])).
Proof. unfold after_save. now intros ->. Qed.

Lemma store_ok_after_save w : store_ok (after_save dumps w) = store_ok w.
Proof. unfold store_ok. now rewrite after_save_tasks, after_save_comments. Qed.

(** C8. A get, update or delete request for an identifier that the
    relevant dictionary does not hold is answered with 404 and the message
    "Task not found" or "Comment not found", and leaves the whole state
    (both dictionaries, the file, the counters) as it was. *)
Theorem not_found_is_404_without_effect w (id : string) (data : value) :
  (forall ts, tasks w = VDict ts -> dict_get id ts = None ->
     view (get_task id) w = (Ok (mkResponse 404 (error "Task not found")), w)
     /\ view (update_task dumps id data) w
        = (Ok (mkResponse 404 (error "Task not found")), w)
     /\ view (delete_task dumps id) w
        = (Ok (mkResponse 404 (error "Task not found")), w))
  /\
  (forall cs, comments w = VDict cs -> dict_get id cs = None ->
     view (get_comment id) w = (Ok (mkResponse 404 (error "Comment not found")), w)
     /\ view (update_comment dumps id data) w
        = (Ok (mkResponse 404 (error "Comment not found")), w)
     /\ view (delete_comment dumps id) w
        = (Ok (mkResponse 404 (error "Comment not found")), w)).
Proof.
  split.
  - intros ts Hts Hid.
    unfold get_task, update_task, delete_task. step.
    rewrite Hts. simpl. rewrite Hid. simpl. auto.
  - intros cs Hcs Hid.
    unfold get_comment, update_comment, delete_comment. step.
    rewrite Hcs. simpl. rewrite Hid. simpl. auto.
Qed.

(** C9. An update of an existing task whose payload holds the key
    [description] and nothing else succeeds with 200; the stored record
    then has the given description, whatever it is (the empty string
    included), and the same [title], [id] and [created_at] as before. *)
Theorem update_task_description_only w ts (task_id : string)
    (rec : list (string * value)) (v : value) :
  tasks w = VDict ts ->
  dict_get task_id ts = Some (VDict rec) ->
  rec <> [] ->
  let task' := VDict (dict_set "description" v rec) in
  let w' := after_save dumps (set_tasks (VDict (dict_set task_id task' ts)) w) in
  view (update_task dumps task_id (VDict [("description", v)])) w
  = (Ok (mkResponse 200 task'), w')
  /\ tasks w' = VDict (dict_set task_id task' ts)
  /\ dict_get task_id (dict_set task_id task' ts) = Some task'
  /\ field "description" task' = Some v
  /\ field "title" task' = field "title" (VDict rec)
  /\ field "id" task' = field "id" (VDict rec)
  /\ field "created_at" task' = field "created_at" (VDict rec).
Proof.
  intros Hts Hrec Hne task' w'.
  assert (Hrun : view (update_task dumps task_id (VDict [("description", v)])) w
                 = (Ok (mkResponse 200 task'), w')).
  { unfold update_task.
    run_with ltac:(rewrite ?Hts, ?Hrec, ?(truthy_record rec Hne), ?save_data_run,
                     ?after_save_tasks, ?dict_get_set_eq).
    reflexivity. }
  repeat split.
  - exact Hrun.
  - unfold w'. now rewrite after_save_tasks.
  - apply dict_get_set_eq.
  - simpl. apply dict_get_set_eq.
  - simpl. apply dict_get_set_ne. discriminate.
  - simpl. apply dict_get_set_ne. discriminate.
  - simpl. apply dict_get_set_ne. discriminate.
Qed.

(** *** Payload look-ups *)

Lemma payload_truthy (k : string) (p : list (string * value)) (v : value) :
  dict_get k p = Some v -> Py.truthy (VDict p) = true.
Proof. destruct p; [discriminate | reflexivity]. Qed.

Lemma dict_mem_present (k : string) (p : list (string * value)) (v : value) :
  dict_get k p = Some v -> dict_mem k p = true.
Proof. intros H. unfold dict_mem. now rewrite H. Qed.

Lemma dict_mem_absent (k : string) (p : list (string * value)) :
  dict_get k p = None -> dict_mem k p = false.
Proof. intros H. unfold dict_mem. now rewrite H. Qed.

Lemma strip_not_str (v : value) : is_str v = false -> Py.strip v = Err AttributeError.
Proof. destruct v; simpl; congruence. Qed.

Lemma truthy_strip (s : string) :
  Py.str_strip s <> EmptyString -> Py.truthy (VStr (Py.str_strip s)) = true.
Proof.
  intros H. simpl. apply negb_true_iff. now apply String.eqb_neq.
Qed.

(** *** Creation *)

(** What [create_task] does with a dictionary that has a [title]. *)
Lemma create_task_run w ts (p : list (string * value)) (title : value) :
  tasks w = VDict ts ->
  dict_get "title" p = Some title ->
  let task_id := uuid_source (host w) (drawn w) in
  let task := VDict [("id", VStr task_id);
                     ("title", title);
                     ("description",
                      match dict_get "description" p with
                      | Some d => d
                      | None => VStr ""
                      end);
                     ("created_at", VStr (clock (host w) (ticks w)))] in
  view (create_task dumps (VDict p)) w
  = (Ok (mkResponse 201 task),
     after_save dumps (set_tasks (VDict (dict_set task_id task ts)) (tick (draw w)))).
Proof.
  intros Hts Htitle task_id task. unfold create_task.
  rewrite (payload_truthy _ _ _ Htitle).
  subst task task_id. destruct (dict_get "description" p) eqn:Hdesc;
    run_with ltac:(rewrite ?(dict_mem_present _ _ _ Htitle), ?Htitle, ?Hdesc, ?Hts,
                     ?save_data_run);
    reflexivity.
Qed.

(** What [create_comment] does with a dictionary whose [content] is a
    string that is not blank. *)
Lemma create_comment_run w cs (task_id : string) (p : list (string * value))
    (s : string) :
  comments w = VDict cs ->
  dict_get "content" p = Some (VStr s) ->
  Py.str_strip s <> EmptyString ->
  let comment_id := uuid_source (host w) (drawn w) in
  let comment := VDict [("id", VStr comment_id);
                        ("task_id", VStr task_id);
                        ("content", VStr s);
                        ("author",
                         match dict_get "author" p with
                         | Some a => a
                         | None => VStr "Anonymous"
                         end);
                        ("created_at", VStr (clock (host w) (ticks w)));
                        ("updated_at", VStr (clock (host w) (S (ticks w))))] in
  view (create_comment dumps task_id (VDict p)) w
  = (Ok (mkResponse 201 comment),
     after_save dumps
       (set_comments (VDict (dict_set comment_id comment cs)) (tick (tick (draw w))))).
Proof.
  intros Hcs Hcontent Hstrip comment_id comment. unfold create_comment.
  rewrite (payload_truthy _ _ _ Hcontent).
  pose proof (truthy_strip _ Hstrip) as Hs. simpl in Hs.
  subst comment comment_id. destruct (dict_get "author" p) eqn:Hauthor;
    run_with ltac:(rewrite ?(dict_mem_present _ _ _ Hcontent), ?Hcontent, ?Hauthor,
                     ?Hs, ?Hcs, ?save_data_run);
    reflexivity.
Qed.

(** C4. A request to create a comment whose content is not blank succeeds
    with 201 whatever the task dictionary holds: the handler never looks at
    it.  The stored comment carries the task identifier of the path. *)
Theorem create_comment_needs_no_task w cs (task_id : string)
    (p : list (string * value)) (s : string) :
  comments w = VDict cs ->
  dict_get "content" p = Some (VStr s) ->
  Py.str_strip s <> EmptyString ->
  exists comment w' cs',
    view (create_comment dumps task_id (VDict p)) w
    = (Ok (mkResponse 201 comment), w')
    /\ field "task_id" comment = Some (VStr task_id)
    /\ comments w' = VDict cs'
    /\ dict_get (uuid_source (host w) (drawn w)) cs' = Some comment
    /\ tasks w' = tasks w.
Proof.
  intros Hcs Hcontent Hstrip.
  pose proof (create_comment_run w cs task_id p s Hcs Hcontent Hstrip) as Hrun.
  cbv zeta in Hrun.
  eexists. eexists. eexists. split; [exact Hrun|].
  split; [reflexivity|].
  split; [now rewrite after_save_comments|].
  split; [apply dict_get_set_eq|].
  now rewrite after_save_tasks.
Qed.

(** C7, as the code has it.  A created comment gets two readings of the
    clock, [created_at] first and [updated_at] right after it; the two
    fields are equal exactly when the clock answered the same both times. *)
Theorem create_comment_reads_clock_twice w cs (task_id : string)
    (p : list (string * value)) (s : string) :
  comments w = VDict cs ->
  dict_get "content" p = Some (VStr s) ->
  Py.str_strip s <> EmptyString ->
  exists comment w',
    view (create_comment dumps task_id (VDict p)) w
    = (Ok (mkResponse 201 comment), w')
    /\ field "created_at" comment = Some (VStr (clock (host w) (ticks w)))
    /\ field "updated_at" comment = Some (VStr (clock (host w) (S (ticks w))))
    /\ (field "created_at" comment = field "updated_at" comment
        <-> clock (host w) (ticks w) = clock (host w) (S (ticks w))).
Proof.
  intros Hcs Hcontent Hstrip.
  pose proof (create_comment_run w cs task_id p s Hcs Hcontent Hstrip) as Hrun.
  cbv zeta in Hrun.
  eexists. eexists. split; [exact Hrun|].
  split; [reflexivity|]. split; [reflexivity|].
  simpl. split; [intros [= E]; exact E | intros E; now rewrite E].
Qed.

(** C10. The blank checks call [strip] on whatever the payload holds.
    When the value under [title] or [content] is not a string, updating a
    task, creating a comment and updating a comment end with an
    [AttributeError] raised out of the handler instead of a 400 response,
    and the state is untouched; creating a task, which never strips, takes
    the same value and stores it as the title. *)
Theorem non_string_text_is_not_validated (v : value) (p : list (string * value)) :
  is_str v = false ->
  (forall w ts id t,
     tasks w = VDict ts -> dict_get id ts = Some t -> Py.truthy t = true ->
     dict_get "title" p = Some v ->
     view (update_task dumps id (VDict p)) w = (Err AttributeError, w))
  /\ (forall w id,
        dict_get "content" p = Some v ->
        view (create_comment dumps id (VDict p)) w = (Err AttributeError, w))
  /\ (forall w cs id c,
        comments w = VDict cs -> dict_get id cs = Some c -> Py.truthy c = true ->
        dict_get "content" p = Some v ->
        view (update_comment dumps id (VDict p)) w = (Err AttributeError, w))
  /\ (forall w ts,
        tasks w = VDict ts ->
        dict_get "title" p = Some v ->
        exists task w',
          view (create_task dumps (VDict p)) w = (Ok (mkResponse 201 task), w')
          /\ field "title" task = Some v
          /\ tasks w' = VDict (dict_set (uuid_source (host w) (drawn w)) task ts)).
Proof.
  intros Hv. pose proof (strip_not_str v Hv) as Hstrip.
  repeat split.
  - intros w ts id t Hts Hid Ht Hp. unfold update_task.
    run_with ltac:(rewrite ?Hts, ?Hid, ?Ht, ?(payload_truthy _ _ _ Hp),
                     ?(dict_mem_present _ _ _ Hp), ?Hp, ?Hstrip).
    reflexivity.
  - intros w id Hp. unfold create_comment.
    run_with ltac:(rewrite ?(payload_truthy _ _ _ Hp),
                     ?(dict_mem_present _ _ _ Hp), ?Hp, ?Hstrip).
    reflexivity.
  - intros w cs id c Hcs Hid Hc Hp. unfold update_comment.
    run_with ltac:(rewrite ?Hcs, ?Hid, ?Hc, ?(payload_truthy _ _ _ Hp),
                     ?(dict_mem_present _ _ _ Hp), ?Hp, ?Hstrip).
    reflexivity.
  - intros w ts Hts Hp.
    pose proof (create_task_run w ts p v Hts Hp) as Hrun. cbv zeta in Hrun.
    eexists. eexists. split; [exact Hrun|].
    split; [reflexivity|]. now rewrite after_save_tasks.
Qed.

(** *** Updating a comment *)

(** The record an accepted update leaves under the comment's identifier. *)
Lemma update_comment_run w cs (comment_id : string)
    (rec p : list (string * value)) :
  comments w = VDict cs ->
  dict_get comment_id cs = Some (VDict rec) ->
  rec <> [] ->
  p <> [] ->
  passes_validation "content" p ->
  let rec1 := match dict_get "content" p with
              | Some c => dict_set "content" c rec
              | None => rec
              end in
  let rec2 := match dict_get "author" p with
              | Some a => dict_set "author" a rec1
              | None => rec1
              end in
  let comment := VDict (dict_set "updated_at" (VStr (clock (host w) (ticks w))) rec2) in
  exists w' cs',
    view (update_comment dumps comment_id (VDict p)) w
    = (Ok (mkResponse 200 comment), w')
    /\ comments w' = VDict cs'
    /\ dict_get comment_id cs' = Some comment
    /\ tasks w' = tasks w.
Proof.
  intros Hcs Hid Hrec Hp Hval rec1 rec2 comment.
  unfold passes_validation in Hval.
  pose proof (truthy_record rec Hrec) as Trec.
  pose proof (truthy_record p Hp) as Tp.
  subst comment rec2 rec1. unfold update_comment.
  destruct (dict_get "content" p) as [c|] eqn:Hc;
    [destruct Hval as [s [-> Hs]]; apply truthy_strip in Hs; simpl in Hs|];
    destruct (dict_get "author" p) as [a|] eqn:Ha;
    run_with ltac:(rewrite ?Hcs, ?Hid, ?Trec, ?Tp, ?Hs,
                     ?(dict_mem_present _ _ _ Hc), ?(dict_mem_absent _ _ Hc),
                     ?(dict_mem_present _ _ _ Ha), ?(dict_mem_absent _ _ Ha),
                     ?Hc, ?Ha, ?dict_get_set_eq, ?save_data_run,
                     ?after_save_comments);
    (eexists; eexists; split; [reflexivity|];
     split; [now rewrite after_save_comments|];
     split; [apply dict_get_set_eq | now rewrite after_save_tasks]).
Qed.

(** C6. An update of an existing comment with a non-empty payload that
    passes the content check answers 200 and stores the current reading of
    the clock as [updated_at]; when the payload has neither [content] nor
    [author], that is the only field that changes. *)
Theorem update_comment_refreshes_updated_at w cs (comment_id : string)
    (rec p : list (string * value)) :
  comments w = VDict cs ->
  dict_get comment_id cs = Some (VDict rec) ->
  rec <> [] ->
  p <> [] ->
  passes_validation "content" p ->
  exists comment w' cs',
    view (update_comment dumps comment_id (VDict p)) w
    = (Ok (mkResponse 200 comment), w')
    /\ comments w' = VDict cs'
    /\ dict_get comment_id cs' = Some comment
    /\ field "updated_at" comment = Some (VStr (clock (host w) (ticks w)))
    /\ (dict_get "content" p = None -> dict_get "author" p = None ->
        comment = VDict (dict_set "updated_at" (VStr (clock (host w) (ticks w))) rec)
        /\ field "content" comment = field "content" (VDict rec)
        /\ field "author" comment = field "author" (VDict rec)).
Proof.
  intros Hcs Hid Hrec Hp Hval.
  destruct (update_comment_run w cs comment_id rec p Hcs Hid Hrec Hp Hval)
    as [w' [cs' [Hrun [Hw' [Hget _]]]]].
  eexists. exists w', cs'. split; [exact Hrun|].
  split; [exact Hw'|]. split; [exact Hget|].
  split; [simpl; apply dict_get_set_eq|].
  intros Hc Ha. rewrite Hc, Ha. split; [reflexivity|].
  split; simpl; apply dict_get_set_ne; discriminate.
Qed.

(** *** Cascading delete *)

Lemma comprehension_filter {A : Type} (cond : A -> result bool) (f : A -> bool)
    (l : list A) :
  (forall x, In x l -> cond x = Ok (f x)) ->
  comprehension cond l = Ok (filter f l).
Proof.
  induction l as [|x l IH]; intros H; simpl; [reflexivity|].
  rewrite (H x (or_introl eq_refl)), IH by (intros y Hy; apply H; now right).
  reflexivity.
Qed.

Lemma comment_ok_task_id (c : value) :
  comment_ok c = true ->
  forall task_id,
    match Py.getitem c "task_id" with
    | Ok t => Ok (Py.eq_str t task_id)
    | Err e => Err e
    end = Ok (of_task task_id c).
Proof.
  unfold comment_ok, of_task, field, Py.getitem. intros H task_id.
  destruct c; try discriminate.
  destruct (dict_get "task_id" d); [reflexivity | discriminate].
Qed.

Lemma comment_ok_created_at (c : value) :
  comment_ok c = true -> Py.getitem c "created_at" = Ok (VStr (created_at_of c)).
Proof.
  unfold comment_ok, created_at_of, field, Py.getitem. intros H.
  destruct c; try discriminate.
  destruct (dict_get "task_id" d); [|discriminate].
  destruct (dict_get "created_at" d) as [[]|]; try discriminate. reflexivity.
Qed.

Lemma comments_ok_values cs (c : value) :
  comments_ok cs = true -> In c (dict_values cs) -> comment_ok c = true.
Proof.
  unfold comments_ok. rewrite andb_true_iff, forallb_forall. intros [_ H]. apply H.
Qed.

Lemma comments_ok_NoDup cs : comments_ok cs = true -> NoDup (dict_keys cs).
Proof.
  unfold comments_ok. rewrite andb_true_iff. intros [H _]. now apply distinct_NoDup.
Qed.

Lemma pop_all_filter (ids : list string) cs :
  pop_all ids cs = filter (fun kv => negb (existsb (String.eqb (fst kv)) ids)) cs.
Proof.
  unfold pop_all. revert cs. induction ids as [|k ids IH]; intros cs; simpl.
  - induction cs as [|kv cs IHcs]; simpl; [reflexivity | now rewrite <- IHcs].
  - rewrite IH. unfold dict_del.
    induction cs as [|kv cs IHcs]; simpl; [reflexivity|].
    rewrite (String.eqb_sym k (fst kv)).
    destruct (String.eqb (fst kv) k); simpl; [assumption|].
    destruct (existsb (String.eqb (fst kv)) ids); simpl; now rewrite IHcs.
Qed.

Lemma NoDup_keys_functional {A : Type} (d : list (string * A)) k (v v' : A) :
  NoDup (dict_keys d) -> In (k, v) d -> In (k, v') d -> v = v'.
Proof.
  unfold dict_keys. induction d as [|[k0 v0] d IH]; simpl; intros Hn H1 H2; [contradiction|].
  inversion Hn as [|? ? Hk Hd]; subst.
  destruct H1 as [E1|H1], H2 as [E2|H2].
  - congruence.
  - injection E1 as -> ->. exfalso. apply Hk. apply in_map_iff. now exists (k, v').
  - injection E2 as -> ->. exfalso. apply Hk. apply in_map_iff. now exists (k, v).
  - now apply IH.
Qed.

Lemma pop_all_matching (f : string * value -> bool) cs :
  NoDup (dict_keys cs) ->
  pop_all (map fst (filter f cs)) cs = filter (fun kv => negb (f kv)) cs.
Proof.
  intros Hn. rewrite pop_all_filter. apply filter_ext_in.
  intros [k v] Hin. f_equal. simpl.
  destruct (f (k, v)) eqn:E.
  - apply existsb_exists. exists k. split; [|apply String.eqb_refl].
    apply in_map_iff. exists (k, v). split; [reflexivity|].
    apply filter_In. now split.
  - destruct (existsb (String.eqb k) (map fst (filter f cs))) eqn:X; [|reflexivity].
    apply existsb_exists in X. destruct X as [k' [Hk' Ek]].
    apply String.eqb_eq in Ek. subst k'.
    apply in_map_iff in Hk'. destruct Hk' as [[k1 v1] [E1 H1]]. simpl in E1. subst k1.
    apply filter_In in H1. destruct H1 as [H1 F1].
    rewrite (NoDup_keys_functional cs k v v1 Hn Hin H1) in E. congruence.
Qed.

Lemma dict_get_of_In {A : Type} (d : list (string * A)) k (v : A) :
  NoDup (dict_keys d) -> In (k, v) d -> dict_get k d = Some v.
Proof.
  intros Hn Hin. destruct (dict_get k d) as [v'|] eqn:E.
  - apply dict_get_In in E. f_equal. exact (NoDup_keys_functional d k v' v Hn E Hin).
  - apply dict_get_None_keys in E. exfalso. apply E.
    unfold dict_keys. apply in_map_iff. now exists (k, v).
Qed.

Lemma dict_get_filter {A : Type} (f : string * A -> bool) (d : list (string * A)) k :
  NoDup (dict_keys d) ->
  dict_get k (filter f d)
  = match dict_get k d with
    | Some v => if f (k, v) then Some v else None
    | None => None
    end.
Proof.
  intros Hn. destruct (dict_get k d) as [v|] eqn:E.
  - apply dict_get_In in E. destruct (f (k, v)) eqn:F.
    + apply dict_get_of_In; [now apply dict_keys_filter|]. apply filter_In. now split.
    + destruct (dict_get k (filter f d)) as [v'|] eqn:E'; [|reflexivity].
      apply dict_get_In, filter_In in E'. destruct E' as [H1 H2].
      rewrite (NoDup_keys_functional d k v v' Hn E H1) in F. congruence.
  - destruct (dict_get k (filter f d)) as [v'|] eqn:E'; [|reflexivity].
    apply dict_get_In, filter_In in E'. destruct E' as [H1 _].
    apply dict_get_None_keys in E. exfalso. apply E.
    unfold dict_keys. apply in_map_iff. now exists (k, v').
Qed.

Lemma set_comments_same w cs : comments w = VDict cs -> set_comments (VDict cs) w = w.
Proof. destruct w. simpl. now intros ->. Qed.

(** The loop [for c_id in ids: comments.pop(c_id)] over distinct identifiers
    that are all present. *)
Lemma pop_loop (ids : list string) : forall w cs,
  comments w = VDict cs ->
  NoDup ids ->
  (forall k, In k ids -> dict_get k cs <> None) ->
  for_each ids (fun c_id => comments_pop c_id ;; ret tt) w
  = (Next tt, set_comments (VDict (pop_all ids cs)) w).
Proof.
  induction ids as [|k ids IH]; intros w cs Hcs Hn Hin.
  - simpl. unfold ret, pop_all. simpl. now rewrite set_comments_same.
  - inversion Hn as [|? ? Hk Hids]; subst.
    destruct (dict_get k cs) as [c|] eqn:E;
      [|exfalso; apply (Hin k); [now left | assumption]].
    simpl. step. rewrite Hcs. simpl. rewrite E. simpl.
    rewrite (IH _ (dict_del k cs)); [reflexivity | reflexivity | assumption |].
    intros k' Hk'. rewrite dict_get_del_ne by (intros ->; contradiction).
    apply Hin. now right.
Qed.

(** C1. Deleting a task that the task dictionary holds answers 200 with the
    deleted record and a confirmation message.  Afterwards the task is gone,
    the other tasks are as before, and the comment dictionary holds exactly
    the comments that belong to other tasks, each unchanged and in its old
    place; the result is written to the data file. *)
Theorem delete_task_cascades w ts cs (task_id : string) (task : value) :
  tasks w = VDict ts ->
  comments w = VDict cs ->
  comments_ok cs = true ->
  dict_get task_id ts = Some task ->
  Py.truthy task = true ->
  let cs' := filter (fun kc => negb (of_task task_id (snd kc))) cs in
  let w' := after_save dumps
              (set_comments (VDict cs') (set_tasks (VDict (dict_del task_id ts)) w)) in
  view (delete_task dumps task_id) w
  = (Ok (mkResponse 200 (VDict [("message", VStr "Task deleted successfully");
                                ("task", task)])), w')
  /\ tasks w' = VDict (dict_del task_id ts)
  /\ dict_get task_id (dict_del task_id ts) = None
  /\ (forall k, k <> task_id -> dict_get k (dict_del task_id ts) = dict_get k ts)
  /\ comments w' = VDict cs'
  /\ (forall k c, dict_get k cs = Some c -> of_task task_id c = true ->
                  dict_get k cs' = None)
  /\ (forall k c, dict_get k cs = Some c -> of_task task_id c = false ->
                  dict_get k cs' = Some c)
  /\ (forall k c, dict_get k cs' = Some c -> dict_get k cs = Some c).
Proof.
  intros Hts Hcs Hok Hid Htask cs' w'.
  pose proof (comments_ok_NoDup cs Hok) as Hn.
  assert (Hrun : view (delete_task dumps task_id) w
                 = (Ok (mkResponse 200 (VDict [("message", VStr "Task deleted successfully");
                                               ("task", task)])), w')).
  { unfold delete_task.
    run_with ltac:(rewrite ?Hts, ?Hid, ?Htask, ?Hcs).
    rewrite (comprehension_filter _ (fun kc => of_task task_id (snd kc))).
    2:{ intros [k c] Hin. apply comment_ok_task_id.
        apply (comments_ok_values cs); [assumption|].
        unfold dict_values. apply in_map_iff. now exists (k, c). }
    step.
    rewrite (pop_loop _ _ cs); [| exact Hcs | |].
    - rewrite pop_all_matching by assumption.
      run_with ltac:(rewrite ?save_data_run). reflexivity.
    - apply (dict_keys_filter (fun kc => of_task task_id (snd kc))) in Hn. exact Hn.
    - intros k Hk. apply in_map_iff in Hk. destruct Hk as [[k' c] [E Hin]].
      simpl in E. subst k'. apply filter_In in Hin. destruct Hin as [Hin _].
      rewrite (dict_get_of_In cs k c Hn Hin). discriminate. }
  split; [exact Hrun|].
  split; [unfold w'; now rewrite after_save_tasks|].
  split; [apply dict_get_del_eq|].
  split; [intros k Hk; apply dict_get_del_ne; congruence|].
  split; [unfold w'; now rewrite after_save_comments|].
  unfold cs'. repeat split; intros k c.
  - intros E F. rewrite dict_get_filter, E by assumption. simpl. now rewrite F.
  - intros E F. rewrite dict_get_filter, E by assumption. simpl. now rewrite F.
  - rewrite dict_get_filter by assumption.
    destruct (dict_get k cs) as [c0|]; [|discriminate].
    destruct (negb _); [trivial | discriminate].
Qed.

(** *** Persistence *)

(** C3. Writing the two dictionaries with [save_data] and reading them in a
    fresh process with [load_data] gives back the same two dictionaries,
    field for field, provided the file can be written and read and the
    library's [loads] undoes its [dumps]. *)
Theorem save_then_restart_restores w ts cs :
  (forall v, loads (dumps v) = Some v) ->
  writable (host w) = true ->
  readable (host w) = true ->
  tasks w = VDict ts ->
  comments w = VDict cs ->
  let w' := restart loads (snd (save_data dumps w)) in
  tasks w' = VDict ts /\ comments w' = VDict cs
  /\ stdout w' = stdout w ++ [Loaded (List.length ts) (List.length cs)].
Proof.
  intros Hcodec Hw Hr Hts Hcs w'. subst w'.
  rewrite save_data_run. unfold restart, after_save, load_data, try_except.
  rewrite Hw.
  run_with ltac:(rewrite ?Hr, ?Hcodec, ?Hts, ?Hcs).
  auto.
Qed.

(** When the file cannot be written, [save_data] reports it on the standard
    output and leaves the file and both dictionaries as they are. *)
Lemma save_data_swallows_failure w :
  writable (host w) = false ->
  save_data dumps w = (Next tt, add_stdout (ErrorSaving OSError) w).
Proof. intros H. rewrite save_data_run. unfold after_save. now rewrite H. Qed.

(** A file that [loads] rejects leaves a fresh process with two empty
    dictionaries. *)
Lemma load_data_malformed w (t : text) :
  data_file w = Some t ->
  readable (host w) = true ->
  loads t = None ->
  let w' := snd (load_data loads w) in
  tasks w' = VDict [] /\ comments w' = VDict [].
Proof.
  intros Hf Hr Hl. unfold load_data, try_except.
  run_with ltac:(rewrite ?Hf, ?Hr, ?Hl). auto.
Qed.

(** *** Order of strings *)

Lemma leb_iff (a b : string) : String.leb a b = true <-> a = b \/ String_as_OT.lt a b.
Proof.
  unfold String.leb. destruct (String.compare a b) eqn:E.
  - apply String_as_OT.cmp_eq in E. tauto.
  - apply String_as_OT.cmp_lt in E. tauto.
  - split; [discriminate|]. intros [H|H].
    + apply String_as_OT.cmp_eq in H. unfold String_as_OT.cmp in H. congruence.
    + apply String_as_OT.cmp_lt in H. unfold String_as_OT.cmp in H. congruence.
Qed.

Lemma leb_trans (a b c : string) :
  String.leb a b = true -> String.leb b c = true -> String.leb a c = true.
Proof.
  rewrite !leb_iff. intros [->|H1] [->|H2]; auto.
  right. eapply String_as_OT.lt_trans; eassumption.
Qed.

Lemma ltb_true_leb (a b : string) : String.ltb a b = true -> String.leb a b = true.
Proof.
  unfold String.ltb, String.leb. now destruct (String.compare a b).
Qed.

Lemma ltb_false_leb (a b : string) : String.ltb a b = false -> String.leb b a = true.
Proof.
  unfold String.ltb, String.leb. rewrite (String.compare_antisym b a).
  now destruct (String.compare a b).
Qed.

(** *** Sorted lists *)

Lemma StronglySorted_app {A : Type} (R : A -> A -> Prop) (l1 l2 : list A) :
  StronglySorted R l1 -> StronglySorted R l2 ->
  (forall x y, In x l1 -> In y l2 -> R x y) ->
  StronglySorted R (l1 ++ l2).
Proof.
  induction l1 as [|a l1 IH]; simpl; intros H1 H2 H; [assumption|].
  apply StronglySorted_inv in H1. destruct H1 as [H1 Ha].
  constructor.
  - apply IH; auto.
  - apply Forall_app. split; [assumption|].
    apply Forall_forall. intros y Hy. apply H; auto.
Qed.

Lemma StronglySorted_rev {A : Type} (R : A -> A -> Prop) (l : list A) :
  StronglySorted R l -> StronglySorted (fun a b => R b a) (rev l).
Proof.
  induction 1 as [|a l Hl IH Ha]; simpl; [constructor|].
  apply StronglySorted_app; [assumption | repeat constructor |].
  intros x y Hx [<-|[]]. rewrite Forall_forall in Ha. apply Ha. now apply in_rev.
Qed.

Lemma StronglySorted_map {A B : Type} (R : A -> A -> Prop) (R' : B -> B -> Prop)
    (f : A -> B) (l : list A) :
  (forall x y, In x l -> In y l -> R x y -> R' (f x) (f y)) ->
  StronglySorted R l -> StronglySorted R' (map f l).
Proof.
  intros H Hs. induction Hs as [|a l Hl IH Ha]; simpl; [constructor|].
  constructor.
  - apply IH. intros x y Hx Hy. apply H; now right.
  - apply Forall_map. rewrite Forall_forall in *. intros y Hy.
    apply H; [now left | now right | now apply Ha].
Qed.

(** *** [list.sort] on string keys *)

Section SortFacts.
Context {A : Type}.
Implicit Types (x : value * A) (l : list (value * A)).

Lemma insert_sorted x l :
  is_str (fst x) = true ->
  Forall (fun p => is_str (fst p) = true) l ->
  StronglySorted key_le l ->
  exists r, PySort.insert x l = Ok r /\ Permutation (x :: l) r
            /\ StronglySorted key_le r.
Proof.
  intros Hx Hl Hs. induction l as [|y l IH]; simpl.
  - exists [x]. repeat split; [apply Permutation_refl | repeat constructor].
  - inversion Hl as [|? ? Hy Hl']; subst.
    apply StronglySorted_inv in Hs. destruct Hs as [Hs Hyl].
    destruct x as [kx ax], y as [ky ay]. simpl in *.
    destruct kx as [| | |sx| |]; try discriminate.
    destruct ky as [| | |sy| |]; try discriminate. simpl.
    destruct (String.ltb sy sx) eqn:E.
    + destruct (IH Hl' Hs) as [r [-> [Hp Hr]]].
      exists ((VStr sy, ay) :: r). split; [reflexivity|]. split.
      * rewrite perm_swap. now constructor.
      * constructor; [assumption|].
        apply (Permutation_Forall Hp). constructor; [|assumption].
        unfold key_le. simpl. now apply ltb_true_leb.
    + exists ((VStr sx, ax) :: (VStr sy, ay) :: l).
      split; [reflexivity|]. split; [apply Permutation_refl|].
      apply ltb_false_leb in E.
      constructor; [now constructor|].
      constructor; [exact E|].
      eapply Forall_impl; [|exact Hyl]. intros q Hq. unfold key_le in *. simpl in *.
      eapply leb_trans; eassumption.
Qed.

Lemma isort_sorted l :
  Forall (fun p => is_str (fst p) = true) l ->
  exists r, PySort.isort l = Ok r /\ Permutation l r /\ StronglySorted key_le r.
Proof.
  induction l as [|x l IH]; intros Hl; simpl.
  - exists []. repeat split; constructor.
  - inversion Hl as [|? ? Hx Hl']; subst.
    destruct (IH Hl') as [s [-> [Hp Hs]]].
    destruct (insert_sorted x s Hx (Permutation_Forall Hp Hl') Hs) as [r [-> [Hp' Hr]]].
    exists r. split; [reflexivity|]. split; [|assumption].
    etransitivity; [|exact Hp']. now constructor.
Qed.

Lemma ltb_irrefl (s : string) : String.ltb s s = false.
Proof.
  unfold String.ltb. pose proof (String.compare_antisym s s) as H.
  destruct (String.compare s s); simpl in H; congruence.
Qed.

(** Insertion never moves the new element past one with the same key. *)
Lemma insert_stable (k : string) x l r :
  PySort.insert x l = Ok r ->
  is_str (fst x) = true ->
  Forall (fun p => is_str (fst p) = true) l ->
  filter (fun p => String.eqb (str_of (fst p)) k) r
  = filter (fun p => String.eqb (str_of (fst p)) k) (x :: l).
Proof.
  revert r. induction l as [|y l IH]; intros r Hr Hx Hl; simpl in Hr.
  - now injection Hr as <-.
  - inversion Hl as [|? ? Hy Hl']; subst.
    destruct x as [kx ax], y as [ky ay]. simpl in *.
    destruct kx as [| | |sx| |]; try discriminate.
    destruct ky as [| | |sy| |]; try discriminate. simpl in *.
    destruct (String.ltb sy sx) eqn:E.
    + destruct (PySort.insert (VStr sx, ax) l) as [r'|] eqn:Er; [|discriminate].
      injection Hr as <-. simpl. rewrite (IH r' eq_refl eq_refl Hl'). simpl.
      destruct (String.eqb sx k) eqn:Ex; [|reflexivity].
      apply String.eqb_eq in Ex. subst k.
      destruct (String.eqb sy sx) eqn:Ey; [|reflexivity].
      apply String.eqb_eq in Ey. subst sy. rewrite ltb_irrefl in E. discriminate.
    + now injection Hr as <-.
Qed.

Lemma isort_stable (k : string) l r :
  PySort.isort l = Ok r ->
  Forall (fun p => is_str (fst p) = true) l ->
  filter (fun p => String.eqb (str_of (fst p)) k) r
  = filter (fun p => String.eqb (str_of (fst p)) k) l.
Proof.
  revert r. induction l as [|x l IH]; intros r Hr Hl; simpl in Hr.
  - now injection Hr as <-.
  - inversion Hl as [|? ? Hx Hl']; subst.
    destruct (isort_sorted l Hl') as [s [Es [Hp _]]]. rewrite Es in Hr.
    rewrite (insert_stable k x s r Hr Hx (Permutation_Forall Hp Hl')). simpl.
    now rewrite (IH s Es Hl').
Qed.

End SortFacts.

Lemma decorate_created_at (l : list value) :
  Forall (fun c => comment_ok c = true) l ->
  PySort.decorate (fun x => Py.getitem x "created_at") l
  = Ok (map (fun x => (VStr (created_at_of x), x)) l).
Proof.
  induction 1 as [|c l Hc Hl IH]; simpl; [reflexivity|].
  rewrite (comment_ok_created_at c Hc), IH. reflexivity.
Qed.

(** Sorting well-formed comments by [created_at], most recent first. *)
Lemma sort_by_created_at (l : list value) :
  Forall (fun c => comment_ok c = true) l ->
  exists r, PySort.sort (fun x => Py.getitem x "created_at") true l = Ok r
            /\ Permutation l r /\ StronglySorted not_older r.
Proof.
  intros Hl. unfold PySort.sort. rewrite (decorate_created_at l Hl).
  set (d := map (fun x => (VStr (created_at_of x), x)) l).
  assert (Hd : Forall (fun p => fst p = VStr (created_at_of (snd p))) (rev d)).
  { apply Forall_rev. unfold d. apply Forall_map. apply Forall_forall. reflexivity. }
  destruct (isort_sorted (rev d)) as [s [-> [Hp Hs]]].
  { eapply Forall_impl; [|exact Hd]. intros p ->. reflexivity. }
  exists (map snd (rev s)). split; [reflexivity|]. split.
  - rewrite <- (Permutation_rev s), <- Hp, <- (Permutation_rev d).
    unfold d. rewrite map_map. simpl. rewrite map_id. apply Permutation_refl.
  - pose proof (Permutation_Forall Hp Hd) as Hs'. rewrite Forall_forall in Hs'.
    apply (StronglySorted_map (fun a b => key_le b a)); [|now apply StronglySorted_rev].
    intros p q Hp' Hq' H. apply in_rev in Hp', Hq'.
    unfold not_older, key_le in *.
    now rewrite (Hs' p Hp'), (Hs' q Hq') in H.
Qed.

(** Comments created at the same instant are listed in the order in which
    the dictionary holds them. *)
Lemma sort_by_created_at_stable (k : string) (l r : list value) :
  Forall (fun c => comment_ok c = true) l ->
  PySort.sort (fun x => Py.getitem x "created_at") true l = Ok r ->
  filter (created_at_is k) r = filter (created_at_is k) l.
Proof.
  intros Hl. unfold PySort.sort. rewrite (decorate_created_at l Hl).
  set (d := map (fun x => (VStr (created_at_of x), x)) l).
  assert (Hd : Forall (fun p => fst p = VStr (created_at_of (snd p))) (rev d)).
  { apply Forall_rev. unfold d. apply Forall_map. apply Forall_forall. reflexivity. }
  assert (Hstr : Forall (fun p : value * value => is_str (fst p) = true) (rev d)).
  { eapply Forall_impl; [|exact Hd]. intros p ->. reflexivity. }
  destruct (PySort.isort (rev d)) as [s|] eqn:Es; [|discriminate].
  intros [= <-].
  destruct (isort_sorted (rev d) Hstr) as [s' [Es' [Hp _]]].
  rewrite Es in Es'. injection Es' as <-.
  pose proof (Permutation_Forall Hp Hd) as Hs.
  assert (Hfil : forall u : list (value * value),
             Forall (fun p => fst p = VStr (created_at_of (snd p))) u ->
             filter (created_at_is k) (map snd u)
             = map snd (filter (fun p => String.eqb (str_of (fst p)) k) u)).
  { induction 1 as [|p u Hp' Hu IH]; simpl; [reflexivity|].
    unfold created_at_is at 1. rewrite Hp'. simpl.
    destruct (String.eqb (created_at_of (snd p)) k); simpl; now rewrite IH. }
  rewrite Hfil by (apply Forall_rev; exact Hs).
  rewrite filter_rev, (isort_stable k (rev d) s Es Hstr), <- filter_rev, rev_involutive.
  rewrite <- Hfil by (apply Forall_rev in Hd; now rewrite rev_involutive in Hd).
  unfold d. rewrite map_map. simpl. now rewrite map_id.
Qed.

(** C5. Listing the comments of a task identifier, known or not, answers
    200 and changes nothing.  The list holds exactly the stored comments
    whose [task_id] is that identifier, most recent [created_at] first;
    [count] is its length, and it is empty when no comment matches. *)
Theorem get_comments_lists_the_task w cs (task_id : string) :
  comments w = VDict cs ->
  comments_ok cs = true ->
  exists l,
    view (get_comments task_id) w
    = (Ok (mkResponse 200 (VDict [("task_id", VStr task_id);
                                  ("comments", VList l);
                                  ("count", VInt (Z.of_nat (List.length l)))])), w)
    /\ Permutation (filter (of_task task_id) (dict_values cs)) l
    /\ StronglySorted not_older l
    /\ (filter (of_task task_id) (dict_values cs) = [] -> l = []).
Proof.
  intros Hcs Hok.
  assert (Hall : Forall (fun c => comment_ok c = true) (dict_values cs)).
  { apply Forall_forall. intros c Hc. now apply (comments_ok_values cs). }
  assert (Hsel : Forall (fun c => comment_ok c = true)
                   (filter (of_task task_id) (dict_values cs))).
  { apply Forall_forall. intros c Hc. apply filter_In in Hc.
    rewrite Forall_forall in Hall. now apply Hall. }
  destruct (sort_by_created_at _ Hsel) as [l [Hsort [Hp Hs]]].
  exists l. split; [|split; [exact Hp | split; [exact Hs|]]].
  - unfold get_comments, get_comments_by_task.
    run_with ltac:(rewrite ?Hcs).
    rewrite (comprehension_filter _ (of_task task_id)).
    2:{ intros c Hc. apply comment_ok_task_id. rewrite Forall_forall in Hall. now apply Hall. }
    run_with ltac:(rewrite ?Hsort). reflexivity.
  - intros E. rewrite E in Hp. now apply Permutation_nil.
Qed.

End AppFacts.

(** ** The shape of the store is an invariant

    Every handler, on every payload and whether it returns or raises, takes
    a store of well-formed records to a store of well-formed records.  The
    statements above that assume such a store therefore speak about every
    state the service can reach from an empty one. *)

Section Invariant.
Context {text : Type}.
Variable dumps : value -> text.
Implicit Types (w : world text).

Lemma preserves_ret {A : Type} (a : A) : preserves (text:=text) (ret a).
Proof. intros w H. exact H. Qed.

Lemma preserves_raise {A : Type} (e : exn) : preserves (text:=text) (A:=A) (raise e).
Proof. intros w H. exact H. Qed.

Lemma preserves_respond {A : Type} (code : Z) (b : value) :
  preserves (text:=text) (A:=A) (respond code b).
Proof. intros w H. exact H. Qed.

Lemma preserves_lift {A : Type} (r : result A) : preserves (text:=text) (lift r).
Proof. destruct r; intros w H; exact H. Qed.

Lemma preserves_get_state : preserves (text:=text) get_state.
Proof. intros w H. exact H. Qed.

Lemma preserves_bind {A B : Type} (m : M (world text) A) (f : A -> M (world text) B) :
  preserves m -> (forall a, preserves (f a)) -> preserves (bind m f).
Proof.
  intros Hm Hf w H. unfold bind. specialize (Hm w H).
  destruct (m w) as [[a|r|e] w1]; simpl in *; [now apply Hf | assumption | assumption].
Qed.

Lemma preserves_when (c : bool) (m : M (world text) unit) :
  preserves m -> preserves (when c m).
Proof. destruct c; [trivial | intros _; apply preserves_ret]. Qed.

Lemma preserves_try_except {A : Type} (m : M (world text) A)
    (h : exn -> M (world text) A) :
  preserves m -> (forall e, preserves (h e)) -> preserves (try_except m h).
Proof.
  intros Hm Hh w H. unfold try_except. specialize (Hm w H).
  destruct (m w) as [[a|r|e] w1]; simpl in *; [assumption | assumption | now apply Hh].
Qed.

Lemma preserves_for_each {A : Type} (l : list A) (body : A -> M (world text) unit) :
  (forall x, preserves (body x)) -> preserves (for_each l body).
Proof.
  intros Hb. induction l as [|x l IH]; simpl; [apply preserves_ret|].
  apply preserves_bind; [apply Hb | intros _; exact IH].
Qed.

Lemma preserves_now : preserves (text:=text) now.
Proof. intros w H. exact H. Qed.

Lemma preserves_uuid4 : preserves (text:=text) uuid4.
Proof. intros w H. exact H. Qed.

Lemma preserves_save_data : preserves (save_data dumps).
Proof. intros w H. rewrite save_data_run. simpl. now rewrite store_ok_after_save. Qed.

Lemma store_ok_inv w :
  store_ok w = true ->
  exists ts cs, tasks w = VDict ts /\ comments w = VDict cs
                /\ tasks_ok ts = true /\ comments_ok cs = true.
Proof.
  unfold store_ok. destruct (tasks w) as [| | | | |ts]; try discriminate.
  destruct (comments w) as [| | | | |cs]; try discriminate.
  rewrite andb_true_iff. intros [H1 H2]. now exists ts, cs.
Qed.

Lemma tasks_ok_set (k : string) (t : value) ts :
  task_ok t = true -> tasks_ok ts = true -> tasks_ok (dict_set k t ts) = true.
Proof.
  unfold tasks_ok. rewrite !andb_true_iff. intros Ht [H1 H2]. split.
  - now apply distinct_dict_set.
  - now apply forallb_values_set.
Qed.

Lemma comments_ok_set (k : string) (c : value) cs :
  comment_ok c = true -> comments_ok cs = true -> comments_ok (dict_set k c cs) = true.
Proof.
  unfold comments_ok. rewrite !andb_true_iff. intros Hc [H1 H2]. split.
  - now apply distinct_dict_set.
  - now apply forallb_values_set.
Qed.

Lemma tasks_ok_del (k : string) ts : tasks_ok ts = true -> tasks_ok (dict_del k ts) = true.
Proof.
  unfold tasks_ok, dict_del. rewrite !andb_true_iff. intros [H1 H2]. split.
  - apply distinct_NoDup. apply dict_keys_filter. now apply distinct_NoDup.
  - now apply forallb_values_filter.
Qed.

Lemma comments_ok_del (k : string) cs :
  comments_ok cs = true -> comments_ok (dict_del k cs) = true.
Proof.
  unfold comments_ok, dict_del. rewrite !andb_true_iff. intros [H1 H2]. split.
  - apply distinct_NoDup. apply dict_keys_filter. now apply distinct_NoDup.
  - now apply forallb_values_filter.
Qed.

Lemma preserves_tasks_get (id : string) : preserves (text:=text) (tasks_get id).
Proof.
  apply preserves_bind; [apply preserves_get_state | intros; apply preserves_lift].
Qed.

Lemma preserves_comments_get (id : string) : preserves (text:=text) (comments_get id).
Proof.
  apply preserves_bind; [apply preserves_get_state | intros; apply preserves_lift].
Qed.

Lemma preserves_tasks_setitem (id : string) (t : value) :
  task_ok t = true -> preserves (text:=text) (tasks_setitem id t).
Proof.
  intros Ht w H. destruct (store_ok_inv w H) as [ts [cs [Hts [Hcs [H1 H2]]]]].
  unfold tasks_setitem. step. rewrite Hts. simpl.
  unfold store_ok. simpl. rewrite Hcs, H2, tasks_ok_set by assumption. reflexivity.
Qed.

Lemma preserves_comments_setitem (id : string) (c : value) :
  comment_ok c = true -> preserves (text:=text) (comments_setitem id c).
Proof.
  intros Hc w H. destruct (store_ok_inv w H) as [ts [cs [Hts [Hcs [H1 H2]]]]].
  unfold comments_setitem. step. rewrite Hcs. simpl.
  unfold store_ok. simpl. rewrite Hts, H1, comments_ok_set by assumption. reflexivity.
Qed.

Lemma preserves_tasks_pop (id : string) : preserves (text:=text) (tasks_pop id).
Proof.
  intros w H. destruct (store_ok_inv w H) as [ts [cs [Hts [Hcs [H1 H2]]]]].
  unfold tasks_pop. step. rewrite Hts. simpl.
  destruct (dict_get id ts); simpl; [|exact H].
  unfold store_ok. simpl. rewrite Hcs, H2, tasks_ok_del by assumption. reflexivity.
Qed.

Lemma preserves_comments_pop (id : string) : preserves (text:=text) (comments_pop id).
Proof.
  intros w H. destruct (store_ok_inv w H) as [ts [cs [Hts [Hcs [H1 H2]]]]].
  unfold comments_pop. step. rewrite Hcs. simpl.
  destruct (dict_get id cs); simpl; [|exact H].
  unfold store_ok. simpl. rewrite Hts, H1, comments_ok_del by assumption. reflexivity.
Qed.

Lemma task_ok_setitem (t : value) (f : string) (v t' : value) :
  Py.setitem t f v = Ok t' -> task_ok t' = true.
Proof.
  destruct t; simpl; try discriminate. intros [= <-].
  destruct d as [|[k x] d]; [reflexivity|].
  cbv beta iota delta [dict_set]. now destruct (String.eqb f k).
Qed.

Lemma comment_ok_setitem (c : value) (f : string) (v c' : value) :
  f <> "task_id" -> f <> "created_at" ->
  comment_ok c = true -> Py.setitem c f v = Ok c' -> comment_ok c' = true.
Proof.
  intros F1 F2 Hc. destruct c; simpl; try discriminate. intros [= <-].
  unfold comment_ok, field in *.
  now rewrite !dict_get_set_ne by assumption.
Qed.

Lemma preserves_task_setitem (id f : string) (v : value) :
  preserves (text:=text) (task_setitem id f v).
Proof.
  unfold task_setitem.
  apply preserves_bind; [apply preserves_tasks_get | intros t].
  destruct (Py.setitem t f v) as [t'|e] eqn:E.
  - change (preserves (text:=text) (tasks_setitem id t')).
    apply preserves_tasks_setitem. now apply (task_ok_setitem t f v).
  - change (preserves (text:=text) (A:=unit) (raise e)). apply preserves_raise.
Qed.

Lemma comments_ok_get cs (id : string) (c : value) :
  comments_ok cs = true -> dict_get id cs = Some c -> comment_ok c = true.
Proof.
  unfold comments_ok. rewrite andb_true_iff. intros [_ H]. now apply forallb_values_get.
Qed.

Lemma preserves_comment_setitem (id f : string) (v : value) :
  f <> "task_id" -> f <> "created_at" ->
  preserves (text:=text) (comment_setitem id f v).
Proof.
  intros F1 F2 w H. destruct (store_ok_inv w H) as [ts [cs [Hts [Hcs [H1 H2]]]]].
  unfold comment_setitem, comments_get. unfold bind at 1 2. unfold get_state.
  rewrite Hcs. simpl.
  destruct (dict_get id cs) as [c|] eqn:E; simpl.
  - destruct (Py.setitem c f v) as [c'|e] eqn:E'; simpl; [|exact H].
    apply (preserves_comments_setitem id c'); [|exact H].
    apply (comment_ok_setitem c f v c' F1 F2); [|exact E'].
    now apply (comments_ok_get cs id).
  - exact H.
Qed.

Lemma store_ok_view (m : M (world text) unit) w :
  store_ok (snd (view m w)) = store_ok (snd (m w)).
Proof. unfold view. now destruct (m w) as [[a|r|e] w1]. Qed.

Ltac keep :=
  repeat first
    [ apply preserves_ret | apply preserves_raise | apply preserves_respond
    | apply preserves_lift | apply preserves_get_state | apply preserves_now
    | apply preserves_uuid4 | apply preserves_save_data
    | apply preserves_tasks_get | apply preserves_comments_get
    | apply preserves_tasks_pop | apply preserves_comments_pop
    | apply preserves_task_setitem
    | apply preserves_comment_setitem; discriminate
    | apply preserves_tasks_setitem; reflexivity
    | apply preserves_comments_setitem; reflexivity
    | apply preserves_when
    | apply preserves_for_each; intros
    | apply preserves_bind; [|intros]
    | match goal with
      | |- preserves (if ?c then _ else _) => destruct c
      end ].

(** Every handler keeps the store well-formed, whatever the identifier and
    the payload and however the handler ends. *)
Theorem handlers_keep_store_ok w (id : string) (data : value) :
  store_ok w = true ->
  store_ok (snd (view get_all_tasks w)) = true
  /\ store_ok (snd (view (create_task dumps data) w)) = true
  /\ store_ok (snd (view (get_task id) w)) = true
  /\ store_ok (snd (view (update_task dumps id data) w)) = true
  /\ store_ok (snd (view (delete_task dumps id) w)) = true
  /\ store_ok (snd (view (create_comment dumps id data) w)) = true
  /\ store_ok (snd (view (get_comments id) w)) = true
  /\ store_ok (snd (view (get_comment id) w)) = true
  /\ store_ok (snd (view (update_comment dumps id data) w)) = true
  /\ store_ok (snd (view (delete_comment dumps id) w)) = true
  /\ store_ok (snd (view health_check w)) = true.
Proof.
  intros H. rewrite !store_ok_view.
  repeat split;
    match goal with
    | |- store_ok (snd (?m w)) = true => revert w H; change (preserves m)
    end.
  - unfold get_all_tasks. keep.
  - unfold create_task. keep.
  - unfold get_task. keep.
  - unfold update_task. keep.
  - unfold delete_task. keep.
  - unfold create_comment. keep.
  - unfold get_comments, get_comments_by_task. keep.
  - unfold get_comment. keep.
  - unfold update_comment. keep.
  - unfold delete_comment. keep.
  - unfold health_check. keep.
Qed.

End Invariant.

(** ** Blank strings *)

Lemma lstrip_blank (s : string) : Py.lstrip s = EmptyString <-> Py.all_space s = true.
Proof.
  induction s as [|c s IH]; simpl; [tauto|].
  destruct (Py.is_space c); simpl; [exact IH|]. split; discriminate.
Qed.

Lemma lstrip_fixed (s : string) :
  Py.all_space (Py.lstrip s) = true -> Py.lstrip s = EmptyString.
Proof.
  induction s as [|c s IH]; simpl; [reflexivity|].
  destruct (Py.is_space c) eqn:E; [exact IH|].
  simpl. rewrite E. discriminate.
Qed.

Lemma rev_string_empty (acc s : string) :
  Py.rev_string acc s = EmptyString -> acc = EmptyString /\ s = EmptyString.
Proof.
  revert acc. induction s as [|c s IH]; simpl; intros acc H; [now split|].
  apply IH in H. destruct H as [H _]. discriminate.
Qed.

Lemma all_space_rev_string (acc s : string) :
  Py.all_space (Py.rev_string acc s) = Py.all_space acc && Py.all_space s.
Proof.
  revert acc. induction s as [|c s IH]; simpl; intros acc.
  - now rewrite andb_true_r.
  - rewrite IH. simpl. destruct (Py.is_space c), (Py.all_space acc); reflexivity.
Qed.

(** [s.strip()] is empty exactly when [s] consists of white space. *)
Lemma str_strip_blank (s : string) :
  Py.str_strip s = EmptyString <-> Py.all_space s = true.
Proof.
  unfold Py.str_strip, Py.rstrip. split.
  - intros H. apply rev_string_empty in H. destruct H as [_ H].
    apply lstrip_blank in H. rewrite all_space_rev_string in H. simpl in H.
    apply lstrip_blank. now apply lstrip_fixed.
  - intros H. apply lstrip_blank in H. rewrite H. reflexivity.
Qed.

(** ** The statements on sample data *)

(** C2. The code at a blank title: [create_task] has no check of its own,
    so a title of three spaces, which [strip] empties and which
    [update_task] would refuse, is answered with 201 and stored. *)
Theorem create_task_accepts_blank_title :
  Py.str_strip "   " = EmptyString
  /\ exists task w',
       view (create_task Sample.dumps (VDict [("title", VStr "   ")])) Sample.empty
       = (Ok (mkResponse 201 task), w')
       /\ field "title" task = Some (VStr "   ")
       /\ tasks w' = VDict [("id-a", task)].
Proof.
  split; [reflexivity|].
  eexists. eexists. split; [reflexivity|]. split; reflexivity.
Qed.

(** The sibling handler refuses the same title. *)
Lemma update_task_refuses_blank_title :
  view (update_task Sample.dumps "T1" (VDict [("title", VStr "   ")])) Sample.busy
  = (Ok (mkResponse 400 (error "Title cannot be empty")), Sample.busy).
Proof. reflexivity. Qed.

(** C7 as stated fails: with a clock that has moved on between the two
    readings, the comment is created with 201 and its two timestamps
    differ. *)
Lemma create_comment_timestamps_can_differ :
  exists r w',
    view (create_comment Sample.dumps "T1" (VDict [("content", VStr "hello")]))
      Sample.busy = (Ok r, w')
    /\ status r = 201%Z
    /\ field "created_at" (body r) <> field "updated_at" (body r).
Proof.
  eexists. eexists. split; [reflexivity|]. split; [reflexivity|].
  simpl. discriminate.
Qed.

Lemma delete_task_cascades_witness :
  fst (view (delete_task Sample.dumps "T1") Sample.busy)
  = Ok (mkResponse 200 (VDict [("message", VStr "Task deleted successfully");
                               ("task", Sample.a_task)]))
  /\ comments (snd (view (delete_task Sample.dumps "T1") Sample.busy))
     = VDict [("C2", Sample.comment "C2" "T2" "elsewhere" "2024-04-30T09:30:00+00:00")].
Proof.
  destruct (delete_task_cascades Sample.dumps Sample.busy
              [("T1", Sample.a_task)] Sample.some_comments "T1" Sample.a_task
              eq_refl eq_refl eq_refl eq_refl eq_refl) as [Hrun [_ [_ [_ [Hc _]]]]].
  rewrite Hrun. split; [reflexivity | exact Hc].
Defined.

Lemma save_then_restart_restores_witness :
  tasks (restart Sample.loads (snd (save_data Sample.dumps Sample.busy)))
  = VDict [("T1", Sample.a_task)]
  /\ comments (restart Sample.loads (snd (save_data Sample.dumps Sample.busy)))
     = VDict Sample.some_comments.
Proof.
  destruct (save_then_restart_restores Sample.dumps Sample.loads Sample.busy
              [("T1", Sample.a_task)] Sample.some_comments
              (fun v => eq_refl) eq_refl eq_refl eq_refl eq_refl) as [Ht [Hc _]].
  split; [exact Ht | exact Hc].
Defined.

Lemma create_comment_needs_no_task_witness :
  exists comment w' cs',
    view (create_comment Sample.dumps "no-such-task" (VDict [("content", VStr "orphan")]))
      Sample.busy = (Ok (mkResponse 201 comment), w')
    /\ field "task_id" comment = Some (VStr "no-such-task")
    /\ comments w' = VDict cs'
    /\ dict_get "id-a" cs' = Some comment
    /\ tasks w' = VDict [("T1", Sample.a_task)].
Proof.
  apply (create_comment_needs_no_task Sample.dumps Sample.busy Sample.some_comments
           "no-such-task" [("content", VStr "orphan")] "orphan" eq_refl eq_refl).
  discriminate.
Defined.

Lemma get_comments_lists_the_task_witness :
  exists l,
    view (get_comments "T1") Sample.busy
    = (Ok (mkResponse 200 (VDict [("task_id", VStr "T1");
                                  ("comments", VList l);
                                  ("count", VInt (Z.of_nat (List.length l)))])),
       Sample.busy)
    /\ Permutation (filter (of_task "T1") (dict_values Sample.some_comments)) l
    /\ StronglySorted not_older l
    /\ (filter (of_task "T1") (dict_values Sample.some_comments) = [] -> l = []).
Proof.
  apply (get_comments_lists_the_task Sample.busy Sample.some_comments "T1"
           eq_refl eq_refl).
Defined.

Lemma update_comment_refreshes_updated_at_witness :
  exists comment w' cs',
    view (update_comment Sample.dumps "C1" (VDict [("mood", VStr "happy")])) Sample.busy
    = (Ok (mkResponse 200 comment), w')
    /\ comments w' = VDict cs'
    /\ dict_get "C1" cs' = Some comment
    /\ field "updated_at" comment = Some (VStr (Sample.wall_clock 0))
    /\ field "content" comment = Some (VStr "first")
    /\ field "author" comment = Some (VStr "Anonymous").
Proof.
  destruct (update_comment_refreshes_updated_at Sample.dumps Sample.busy
              Sample.some_comments "C1"
              [("id", VStr "C1"); ("task_id", VStr "T1"); ("content", VStr "first");
               ("author", VStr "Anonymous");
               ("created_at", VStr "2024-04-30T09:00:00+00:00");
               ("updated_at", VStr "2024-04-30T09:00:00+00:00")]
              [("mood", VStr "happy")] eq_refl eq_refl)
    as [comment [w' [cs' [Hrun [Hc [Hg [Hu Hrest]]]]]]]; try discriminate.
  - exact I.
  - destruct (Hrest eq_refl eq_refl) as [_ [H1 H2]].
    exists comment, w', cs'. repeat split; assumption.
Defined.

Lemma create_comment_reads_clock_twice_witness :
  exists comment w',
    view (create_comment Sample.dumps "T1" (VDict [("content", VStr "hello")]))
      Sample.busy = (Ok (mkResponse 201 comment), w')
    /\ field "created_at" comment = Some (VStr (Sample.wall_clock 0))
    /\ field "updated_at" comment = Some (VStr (Sample.wall_clock 1)).
Proof.
  destruct (create_comment_reads_clock_twice Sample.dumps Sample.busy
              Sample.some_comments "T1" [("content", VStr "hello")] "hello"
              eq_refl eq_refl) as [comment [w' [Hrun [H1 [H2 _]]]]]; [discriminate|].
  exists comment, w'. repeat split; assumption.
Defined.

Lemma not_found_is_404_without_effect_witness :
  view (delete_task Sample.dumps "T9") Sample.busy
  = (Ok (mkResponse 404 (error "Task not found")), Sample.busy)
  /\ view (update_comment Sample.dumps "T9" (VDict [("content", VStr "x")])) Sample.busy
     = (Ok (mkResponse 404 (error "Comment not found")), Sample.busy).
Proof.
  destruct (not_found_is_404_without_effect Sample.dumps Sample.busy "T9"
              (VDict [("content", VStr "x")])) as [Ht Hc].
  split.
  - apply (Ht [("T1", Sample.a_task)] eq_refl eq_refl).
  - apply (Hc Sample.some_comments eq_refl eq_refl).
Defined.

Lemma update_task_description_only_witness :
  fst (view (update_task Sample.dumps "T1" (VDict [("description", VStr "")])) Sample.busy)
  = Ok (mkResponse 200
          (VDict [("id", VStr "T1"); ("title", VStr "Write report");
                  ("description", VStr "");
                  ("created_at", VStr "2024-04-30T08:00:00+00:00")])).
Proof.
  destruct (update_task_description_only Sample.dumps Sample.busy
              [("T1", Sample.a_task)] "T1"
              [("id", VStr "T1"); ("title", VStr "Write report");
               ("description", VStr "draft");
               ("created_at", VStr "2024-04-30T08:00:00+00:00")]
              (VStr "") eq_refl eq_refl) as [Hrun _]; [discriminate|].
  rewrite Hrun. reflexivity.
Defined.

Lemma non_string_text_is_not_validated_witness :
  view (update_task Sample.dumps "T1" (VDict [("title", VInt 7); ("content", VInt 7)]))
    Sample.busy = (Err AttributeError, Sample.busy)
  /\ view (create_comment Sample.dumps "T1"
             (VDict [("title", VInt 7); ("content", VInt 7)])) Sample.busy
     = (Err AttributeError, Sample.busy)
  /\ view (update_comment Sample.dumps "C1"
             (VDict [("title", VInt 7); ("content", VInt 7)])) Sample.busy
     = (Err AttributeError, Sample.busy)
  /\ exists task w',
       view (create_task Sample.dumps (VDict [("title", VInt 7); ("content", VInt 7)]))
         Sample.busy = (Ok (mkResponse 201 task), w')
       /\ field "title" task = Some (VInt 7).
Proof.
  destruct (non_string_text_is_not_validated Sample.dumps (VInt 7)
              [("title", VInt 7); ("content", VInt 7)] eq_refl)
    as [H1 [H2 [H3 H4]]].
  split; [apply (H1 Sample.busy [("T1", Sample.a_task)] "T1" Sample.a_task);
          reflexivity|].
  split; [apply (H2 Sample.busy "T1"); reflexivity|].
  split; [apply (H3 Sample.busy Sample.some_comments "C1"
                   (Sample.comment "C1" "T1" "first" "2024-04-30T09:00:00+00:00"));
          reflexivity|].
  destruct (H4 Sample.busy [("T1", Sample.a_task)] eq_refl eq_refl)
    as [task [w' [Hrun [Ht _]]]].
  exists task, w'. split; assumption.
Defined.

(** * The service as a whole *)

(** ** Every path through every handler *)

(** The loop of [delete_task] never leaves the handler through [return], and
    touches nothing but the comment dictionary. *)
Lemma pop_loop_frame {text : Type} (ids : list string) : forall w : world text,
  exists o w',
    for_each ids (fun c_id => comments_pop c_id ;; ret tt) w = (o, w')
    /\ (forall r, o <> Return r)
    /\ tasks w' = tasks w /\ data_file w' = data_file w /\ stdout w' = stdout w
    /\ ticks w' = ticks w /\ drawn w' = drawn w /\ host w' = host w.
Proof.
  induction ids as [|k ids IH]; intros w; simpl.
  - exists (Next tt), w. repeat split; discriminate.
  - unfold bind at 1. unfold comments_pop at 1. unfold bind at 1 2 3. unfold get_state.
    destruct (Py.pop (comments w) k) as [[c cs']|e]; simpl.
    + destruct (IH (set_comments cs' w)) as [o [w' [E [Hno H]]]].
      rewrite E. exists o, w'. split; [reflexivity|]. split; [exact Hno | exact H].
    + exists (Raise e), w. repeat split; discriminate.
Qed.

(** Case analysis on the next thing the handler looks at. *)
Ltac split_match :=
  match goal with
  | |- context [for_each ?l ?b ?w0] =>
      let o := fresh "o" in
      let w2 := fresh "w" in
      let E := fresh "Eloop" in
      let Hno := fresh "Hno" in
      destruct (pop_loop_frame l w0)
        as [o [w2 [E [Hno [? [? [? [? [? ?]]]]]]]]];
      change (for_each l b w0)
        with (for_each l (fun c_id => comments_pop c_id ;; ret tt) w0);
      rewrite E; destruct o as [[]|r0|?];
      [ | exfalso; exact (Hno r0 eq_refl) | ]
  | |- context [match comprehension ?c ?l with _ => _ end] =>
      destruct (comprehension c l) eqn:?
  | |- context [match PySort.sort ?k ?b ?l with _ => _ end] =>
      destruct (PySort.sort k b l) eqn:?
  | |- context [match ?x with _ => _ end] =>
      lazymatch x with
      | context [match _ with _ => _ end] => fail
      | _ => destruct x eqn:?
      end
  | |- context [if ?x then _ else _] =>
      lazymatch x with
      | context [match _ with _ => _ end] => fail
      | _ => destruct x eqn:?
      end
  end.

Ltac all_paths :=
  repeat (step; rewrite ?save_data_run; try split_match); simpl.

Ltac open_request rq :=
  destruct rq; unfold serve, dispatch, get_all_tasks, create_task, get_task,
    update_task, delete_task, create_comment, get_comments, get_comments_by_task,
    get_comment, update_comment, delete_comment, health_check.

(** *** Stores of well-formed records *)

Lemma task_ok_truthy (t : value) : task_ok t = true -> Py.truthy t = true.
Proof. destruct t as [| | | | |[|p d]]; simpl; congruence. Qed.


Lemma comment_ok_truthy (c : value) : comment_ok c = true -> Py.truthy c = true.
Proof.
  unfold comment_ok, field. destruct c as [| | | | |[|p d]]; simpl; congruence.
Qed.

Ltac split_record :=
  match goal with
  | |- context [Py.setitem ?c _ _] => is_var c; destruct c
  | |- context [Py.strip ?c] => is_var c; destruct c
  end.

Ltac settle Hts Hcs :=
  repeat progress
    (simpl; unfold dict_mem;
     rewrite ?save_data_run, ?after_save_tasks, ?after_save_comments,
       ?dict_get_set_eq, ?Hts, ?Hcs).

Ltac all_paths_on Hts Hcs :=
  repeat (step; settle Hts Hcs; try first [split_record | split_match]);
  simpl.


Section Service.
Context {text : Type}.
Variable dumps : value -> text.
Implicit Types (w : world text) (rq : request) (r : response).

(** X1. Every response carries one of four status codes.  A 201 comes from
    a [POST] route and from nowhere else, a 404 body is one of the two
    "not found" messages, and a 400 body one of the five validation
    messages, always under the single key [error]. *)
Theorem responses_have_a_known_shape rq w r w' :
  serve dumps rq w = (Ok r, w') ->
  (status r = 200%Z /\ is_create rq = false)
  \/ (status r = 201%Z /\ is_create rq = true)
  \/ (status r = 400%Z
      /\ exists msg, body r = error msg /\ In msg validation_messages)
  \/ (status r = 404%Z
      /\ exists msg, body r = error msg /\ In msg not_found_messages).
Proof.
  open_request rq; all_paths; intros [= <- <-] || discriminate; simpl;
    unfold validation_messages, not_found_messages;
    first [ left; split; reflexivity
          | right; left; split; reflexivity
          | right; right; left; split; [reflexivity | eexists; split; [reflexivity|simpl; tauto]]
          | right; right; right; split; [reflexivity | eexists; split; [reflexivity|simpl; tauto]] ].
Qed.

(** X2. A request answered with 400 or 404 has no effect at all: both
    dictionaries, the data file, the output and the two counters are as
    they were.  Every check comes before the first assignment. *)
Theorem error_responses_have_no_effect rq w r w' :
  serve dumps rq w = (Ok r, w') ->
  (400 <= status r)%Z ->
  w' = w.
Proof.
  open_request rq; all_paths; intros [= <- <-] || discriminate; simpl;
    intros Hs; reflexivity || lia.
Qed.

(** X3. A [GET] route writes nothing, however it ends: the dictionaries, the
    data file and the output stay as they are.  Only the health check
    consumes a reading of the clock. *)
Theorem reads_never_write rq w :
  is_read rq = true ->
  let w' := snd (serve dumps rq w) in
  tasks w' = tasks w /\ comments w' = comments w /\ data_file w' = data_file w
  /\ stdout w' = stdout w /\ drawn w' = drawn w
  /\ ticks w' = (match rq with HealthCheck => S (ticks w) | _ => ticks w end).
Proof.
  intros Hr w'. subst w'. revert Hr.
  open_request rq; try discriminate; intros _; all_paths; repeat split.
Qed.

(** X4. Whenever a route that is not a [GET] answers 200 or 201 and the
    data file can be written, the file holds the dump of exactly the two
    dictionaries the process has in memory when the response leaves. *)
Theorem successful_writes_reach_the_file rq w r w' :
  is_read rq = false ->
  writable (host w) = true ->
  serve dumps rq w = (Ok r, w') ->
  (status r < 400)%Z ->
  in_sync dumps w'.
Proof.
  intros Hr Hw. revert Hr.
  open_request rq; try discriminate; intros _; all_paths;
    intros [= <- <-] || discriminate; simpl; intros Hs; try lia;
    unfold in_sync; rewrite after_save_tasks, after_save_comments;
    apply after_save_file; simpl in *; congruence.
Qed.


(** What [delete_task] does to a task that is there. *)
Lemma delete_task_run w (ts cs : list (string * value)) (id : string) (task : value) :
  tasks w = VDict ts ->
  comments w = VDict cs ->
  comments_ok cs = true ->
  dict_get id ts = Some task ->
  Py.truthy task = true ->
  view (delete_task dumps id) w
  = (Ok (mkResponse 200 (VDict [("message", VStr "Task deleted successfully");
                                ("task", task)])),
     after_save dumps
       (set_comments (VDict (filter (fun kc => negb (of_task id (snd kc))) cs))
          (set_tasks (VDict (dict_del id ts)) w))).
Proof.
  intros Hts Hcs Hok Hid Htask.
  pose proof (comments_ok_NoDup cs Hok) as Hn.
  unfold delete_task.
  run_with ltac:(rewrite ?Hts, ?Hid, ?Htask, ?Hcs).
  rewrite (comprehension_filter _ (fun kc => of_task id (snd kc))).
  2:{ intros [k c] Hin. apply comment_ok_task_id.
      apply (comments_ok_values cs); [assumption|].
      unfold dict_values. apply in_map_iff. now exists (k, c). }
  step.
  match goal with
  | |- context [for_each ?l ?b ?w0] =>
      change (for_each l b w0)
        with (for_each l (fun c_id => comments_pop c_id ;; ret tt) w0)
  end.
  rewrite (pop_loop _ _ cs); [| exact Hcs | |].
  - rewrite pop_all_matching by assumption.
    run_with ltac:(rewrite ?save_data_run). reflexivity.
  - apply (dict_keys_filter (fun kc => of_task id (snd kc))) in Hn. exact Hn.
  - intros k Hk. apply in_map_iff in Hk. destruct Hk as [[k' c] [E Hin]].
    simpl in E. subst k'. apply filter_In in Hin. destruct Hin as [Hin _].
    rewrite (dict_get_of_In cs k c Hn Hin). discriminate.
Qed.

(** What [get_comments] answers on well-formed comments. *)
Lemma get_comments_run w (cs : list (string * value)) (id : string) :
  comments w = VDict cs ->
  comments_ok cs = true ->
  exists l,
    PySort.sort (fun x => Py.getitem x "created_at") true
      (filter (of_task id) (dict_values cs)) = Ok l
    /\ view (get_comments id) w
       = (Ok (mkResponse 200 (VDict [("task_id", VStr id);
                                     ("comments", VList l);
                                     ("count", VInt (Z.of_nat (List.length l)))])), w).
Proof.
  intros Hcs Hok.
  assert (Hall : Forall (fun c => comment_ok c = true) (dict_values cs)).
  { apply Forall_forall. intros c Hc. now apply (comments_ok_values cs). }
  assert (Hsel : Forall (fun c => comment_ok c = true)
                   (filter (of_task id) (dict_values cs))).
  { apply Forall_forall. intros c Hc. apply filter_In in Hc.
    rewrite Forall_forall in Hall. now apply Hall. }
  destruct (sort_by_created_at _ Hsel) as [l [Hsort _]].
  exists l. split; [exact Hsort|].
  unfold get_comments, get_comments_by_task.
  run_with ltac:(rewrite ?Hcs).
  rewrite (comprehension_filter _ (of_task id)).
  2:{ intros c Hc. apply comment_ok_task_id. rewrite Forall_forall in Hall. now apply Hall. }
  run_with ltac:(rewrite ?Hsort). reflexivity.
Qed.



End Service.

(** ** What each handler answers *)

Section Behaviour.
Context {text : Type}.
Variable dumps : value -> text.
Variable loads : text -> option value.
Implicit Types (w : world text) (ts cs p : list (string * value)).

(** X8. A creation whose body is absent, empty, or an object without the
    required key is answered with 400, "Title is required" for a task and
    "Content is required" for a comment, and nothing is stored. *)
Theorem create_requires_its_field w (id : string) (data : value) :
  (lacks "title" data = true ->
   serve dumps (CreateTask data) w
   = (Ok (mkResponse 400 (error "Title is required")), w))
  /\ (lacks "content" data = true ->
      serve dumps (CreateComment id data) w
      = (Ok (mkResponse 400 (error "Content is required")), w)).
Proof.
  unfold lacks, serve, dispatch.
  split; intros H; unfold create_task, create_comment;
    destruct (Py.truthy data) eqn:T; simpl in H.
  - destruct data as [| | | | |p]; try discriminate H.
    apply negb_true_iff in H.
    run_with ltac:(rewrite ?T, ?H). reflexivity.
  - run_with ltac:(rewrite ?T). reflexivity.
  - destruct data as [| | | | |p]; try discriminate H.
    apply negb_true_iff in H.
    run_with ltac:(rewrite ?T, ?H). reflexivity.
  - run_with ltac:(rewrite ?T). reflexivity.
Qed.

(** X9. A text made of white space only is refused before anything is
    assigned: creating a comment, updating a task and updating a comment
    answer 400 with "... cannot be empty" and leave the state alone, also
    when the payload carries other fields that would have been accepted. *)
Theorem blank_text_is_refused w (id : string) (s : string) p :
  Py.all_space s = true ->
  (dict_get "content" p = Some (VStr s) ->
   serve dumps (CreateComment id (VDict p)) w
   = (Ok (mkResponse 400 (error "Content cannot be empty")), w))
  /\ (forall ts t,
        tasks w = VDict ts -> dict_get id ts = Some t -> Py.truthy t = true ->
        dict_get "title" p = Some (VStr s) ->
        serve dumps (UpdateTask id (VDict p)) w
        = (Ok (mkResponse 400 (error "Title cannot be empty")), w))
  /\ (forall cs c,
        comments w = VDict cs -> dict_get id cs = Some c -> Py.truthy c = true ->
        dict_get "content" p = Some (VStr s) ->
        serve dumps (UpdateComment id (VDict p)) w
        = (Ok (mkResponse 400 (error "Content cannot be empty")), w)).
Proof.
  intros Hs. apply str_strip_blank in Hs.
  unfold serve, dispatch. repeat split.
  - intros Hp. unfold create_comment.
    run_with ltac:(rewrite ?(payload_truthy _ _ _ Hp),
                     ?(dict_mem_present _ _ _ Hp), ?Hp, ?Hs).
    reflexivity.
  - intros ts t Hts Hid Ht Hp. unfold update_task.
    run_with ltac:(rewrite ?Hts, ?Hid, ?Ht, ?(payload_truthy _ _ _ Hp),
                     ?(dict_mem_present _ _ _ Hp), ?Hp, ?Hs).
    reflexivity.
  - intros cs c Hcs Hid Hc Hp. unfold update_comment.
    run_with ltac:(rewrite ?Hcs, ?Hid, ?Hc, ?(payload_truthy _ _ _ Hp),
                     ?(dict_mem_present _ _ _ Hp), ?Hp, ?Hs).
    reflexivity.
Qed.

(** X10. An update of a stored record with an absent or empty body is
    answered with 400 "No data provided" and changes nothing. *)
Theorem empty_update_is_refused w (id : string) (data : value) :
  Py.truthy data = false ->
  (forall ts t,
     tasks w = VDict ts -> dict_get id ts = Some t -> Py.truthy t = true ->
     serve dumps (UpdateTask id data) w
     = (Ok (mkResponse 400 (error "No data provided")), w))
  /\ (forall cs c,
        comments w = VDict cs -> dict_get id cs = Some c -> Py.truthy c = true ->
        serve dumps (UpdateComment id data) w
        = (Ok (mkResponse 400 (error "No data provided")), w)).
Proof.
  intros Hd. unfold serve, dispatch. split.
  - intros ts t Hts Hid Ht. unfold update_task.
    run_with ltac:(rewrite ?Hts, ?Hid, ?Ht, ?Hd). reflexivity.
  - intros cs c Hcs Hid Hc. unfold update_comment.
    run_with ltac:(rewrite ?Hcs, ?Hid, ?Hc, ?Hd). reflexivity.
Qed.


(** *** Reading back what was written *)

Lemma dict_values_set_absent {A : Type} (k : string) (v : A) (d : list (string * A)) :
  dict_get k d = None -> dict_values (dict_set k v d) = dict_values d ++ [v].
Proof.
  unfold dict_values. induction d as [|[k' v'] d IH]; intros H; [reflexivity|].
  change (dict_get k ((k', v') :: d))
    with (if String.eqb k k' then Some v' else dict_get k d) in H.
  change (dict_set k v ((k', v') :: d))
    with (if String.eqb k k' then (k, v) :: d else (k', v') :: dict_set k v d).
  destruct (String.eqb k k'); [discriminate H|].
  simpl. f_equal. now apply IH.
Qed.

(** X11. A task created from an object with a title gets the drawn
    identifier and the current clock reading, the title as given and the
    description as given or empty.  When the identifier is new, a following
    read of that identifier returns exactly the record of the 201 response,
    the listing shows it after all older tasks, and no older task changed. *)
Theorem created_task_can_be_read w ts p (title : value) :
  tasks w = VDict ts ->
  dict_get "title" p = Some title ->
  dict_get (uuid_source (host w) (drawn w)) ts = None ->
  exists task w',
    serve dumps (CreateTask (VDict p)) w = (Ok (mkResponse 201 task), w')
    /\ field "id" task = Some (VStr (uuid_source (host w) (drawn w)))
    /\ field "title" task = Some title
    /\ field "description" task
       = Some (match dict_get "description" p with Some d => d | None => VStr "" end)
    /\ field "created_at" task = Some (VStr (clock (host w) (ticks w)))
    /\ serve dumps (GetTask (uuid_source (host w) (drawn w))) w'
       = (Ok (mkResponse 200 task), w')
    /\ serve dumps GetAllTasks w'
       = (Ok (mkResponse 200 (VList (dict_values ts ++ [task]))), w')
    /\ (forall k t, dict_get k ts = Some t ->
          exists ts', tasks w' = VDict ts' /\ dict_get k ts' = Some t).
Proof.
  intros Hts Htitle Hfresh.
  pose proof (create_task_run dumps w ts p title Hts Htitle) as Hrun.
  cbv zeta in Hrun. unfold serve, dispatch.
  eexists. eexists. split; [exact Hrun|].
  repeat split.
  - unfold get_task.
    run_with ltac:(rewrite ?after_save_tasks, ?dict_get_set_eq). reflexivity.
  - unfold get_all_tasks.
    run_with ltac:(rewrite ?after_save_tasks).
    rewrite dict_values_set_absent by assumption. reflexivity.
  - intros k t Hk. eexists. split; [now rewrite after_save_tasks|].
    simpl. rewrite dict_get_set_ne; [assumption | congruence].
Qed.

(** The record an accepted task update leaves under the identifier. *)
Lemma update_task_run w ts (id : string) (rec p : list (string * value)) :
  tasks w = VDict ts ->
  dict_get id ts = Some (VDict rec) ->
  rec <> [] ->
  p <> [] ->
  passes_validation "title" p ->
  let rec1 := match dict_get "title" p with
              | Some t => dict_set "title" t rec
              | None => rec
              end in
  let rec2 := match dict_get "description" p with
              | Some d => dict_set "description" d rec1
              | None => rec1
              end in
  exists w' ts',
    view (update_task dumps id (VDict p)) w = (Ok (mkResponse 200 (VDict rec2)), w')
    /\ tasks w' = VDict ts'
    /\ dict_get id ts' = Some (VDict rec2)
    /\ dict_keys ts' = dict_keys ts
    /\ comments w' = comments w.
Proof.
  intros Hts Hid Hrec Hp Hval rec1 rec2.
  unfold passes_validation in Hval.
  pose proof (truthy_record rec Hrec) as Trec.
  pose proof (truthy_record p Hp) as Tp.
  assert (Hpres : dict_get id ts <> None) by congruence.
  subst rec2 rec1. unfold update_task.
  destruct (dict_get "title" p) as [t|] eqn:Ht;
    [destruct Hval as [s [-> Hs]]; apply truthy_strip in Hs; simpl in Hs|];
    destruct (dict_get "description" p) as [d|] eqn:Hd;
    run_with ltac:(rewrite ?Hts, ?Hid, ?Trec, ?Tp, ?Hs,
                     ?(dict_mem_present _ _ _ Ht), ?(dict_mem_absent _ _ Ht),
                     ?(dict_mem_present _ _ _ Hd), ?(dict_mem_absent _ _ Hd),
                     ?Ht, ?Hd, ?dict_get_set_eq, ?save_data_run,
                     ?after_save_tasks);
    (eexists; eexists; split; [reflexivity|];
     split; [rewrite after_save_tasks; first [exact Hts | reflexivity]|];
     split; [first [apply dict_get_set_eq | exact Hid]|];
     split; [|now rewrite after_save_comments]);
    repeat (rewrite dict_keys_set_present
              by (rewrite ?dict_get_set_eq; congruence));
    reflexivity.
Qed.

(** X12. An update of a stored task with a non-empty object whose title, if
    given, is a string that is not blank answers 200.  The fields given are
    replaced by the given values, the fields not given stay, unknown keys
    are ignored, the task keeps its place among the tasks, and a following
    read returns the updated record. *)
Theorem update_task_replaces_given_fields w ts (id : string)
    (rec p : list (string * value)) :
  tasks w = VDict ts ->
  dict_get id ts = Some (VDict rec) ->
  rec <> [] ->
  p <> [] ->
  passes_validation "title" p ->
  exists task w' ts',
    serve dumps (UpdateTask id (VDict p)) w = (Ok (mkResponse 200 task), w')
    /\ tasks w' = VDict ts'
    /\ dict_keys ts' = dict_keys ts
    /\ field "title" task
       = match dict_get "title" p with
         | Some t => Some t
         | None => field "title" (VDict rec)
         end
    /\ field "description" task
       = match dict_get "description" p with
         | Some d => Some d
         | None => field "description" (VDict rec)
         end
    /\ field "id" task = field "id" (VDict rec)
    /\ field "created_at" task = field "created_at" (VDict rec)
    /\ serve dumps (GetTask id) w' = (Ok (mkResponse 200 task), w').
Proof.
  intros Hts Hid Hrec Hp Hval.
  destruct (update_task_run w ts id rec p Hts Hid Hrec Hp Hval)
    as [w' [ts' [Hrun [Hw' [Hget [Hkeys _]]]]]].
  eexists. exists w', ts'. unfold serve, dispatch.
  split; [exact Hrun|]. split; [exact Hw'|]. split; [exact Hkeys|].
  assert (Hne : forall f, f <> "title" -> f <> "description" ->
      field f (VDict
                 match dict_get "description" p with
                 | Some d =>
                     dict_set "description" d
                       match dict_get "title" p with
                       | Some t => dict_set "title" t rec
                       | None => rec
                       end
                 | None =>
                     match dict_get "title" p with
                     | Some t => dict_set "title" t rec
                     | None => rec
                     end
                 end) = field f (VDict rec)).
  { intros f F1 F2. simpl.
    destruct (dict_get "description" p), (dict_get "title" p);
      rewrite ?dict_get_set_ne by congruence; reflexivity. }
  repeat split.
  - simpl. destruct (dict_get "description" p), (dict_get "title" p);
      rewrite ?dict_get_set_ne by discriminate; rewrite ?dict_get_set_eq; reflexivity.
  - simpl. destruct (dict_get "description" p), (dict_get "title" p);
      rewrite ?dict_get_set_eq; rewrite ?dict_get_set_ne by discriminate; reflexivity.
  - apply Hne; discriminate.
  - apply Hne; discriminate.
  - unfold get_task. run_with ltac:(rewrite ?Hw', ?Hget).
    assert (T : Py.truthy (VDict
                 match dict_get "description" p with
                 | Some d =>
                     dict_set "description" d
                       match dict_get "title" p with
                       | Some t => dict_set "title" t rec
                       | None => rec
                       end
                 | None =>
                     match dict_get "title" p with
                     | Some t => dict_set "title" t rec
                     | None => rec
                     end
                 end) = true).
    { apply task_ok_truthy.
      destruct (dict_get "description" p), (dict_get "title" p);
        first [ refine (task_ok_setitem (VDict _) _ _ _ eq_refl)
              | destruct rec; [contradiction | reflexivity] ]. }
    rewrite T. reflexivity.
Qed.

End Behaviour.

(** ** What an update cannot change *)

Lemma same_identity_refl (fields : list string) (d : list (string * value)) :
  same_identity fields d d.
Proof. split; [reflexivity|]. intros k t H. now exists t. Qed.

(** Assigning a field outside [fields] in one stored record. *)
Lemma same_identity_setitem (fields : list string) (d d0 : list (string * value))
    (id f : string) (v : value) (rec : list (string * value)) :
  same_identity fields d d0 ->
  dict_get id d0 = Some (VDict rec) ->
  ~ In f fields ->
  same_identity fields d (dict_set id (VDict (dict_set f v rec)) d0).
Proof.
  intros [Hk Hrec] Hid Hf. split.
  - rewrite dict_keys_set_present by congruence. exact Hk.
  - intros k t Hkt. destruct (Hrec k t Hkt) as [t0 [Ht0 Hfields]].
    destruct (String.eqb_spec id k) as [->|Hne].
    + rewrite dict_get_set_eq. eexists. split; [reflexivity|].
      intros g Hg. rewrite <- (Hfields g Hg).
      assert (t0 = VDict rec) by congruence. subst t0. simpl.
      apply dict_get_set_ne. intros ->. contradiction.
    + rewrite dict_get_set_ne by assumption. now exists t0.
Qed.

Lemma others_untouched_setitem (d d0 : list (string * value)) (id : string)
    (x : value) :
  (forall k, k <> id -> dict_get k d0 = dict_get k d) ->
  forall k, k <> id -> dict_get k (dict_set id x d0) = dict_get k d.
Proof.
  intros H k Hk. rewrite dict_get_set_ne by congruence. now apply H.
Qed.

Ltac identity_kept :=
  repeat first
    [ apply same_identity_refl
    | apply same_identity_setitem;
      [ | rewrite ?dict_get_set_eq; first [eassumption | reflexivity]
        | simpl; intuition discriminate ] ].

Ltac others_kept :=
  repeat first
    [ apply others_untouched_setitem
    | intros; reflexivity ].

Section Identity.
Context {text : Type}.
Variable dumps : value -> text.
Implicit Types (w : world text) (ts cs : list (string * value)).

(** X13. Whatever the payload and however the handler ends, updating a
    task adds and removes no task, keeps their order, leaves every other
    task and all comments as they are, and never changes the [id] or the
    [created_at] of the task it addresses. *)
Theorem update_task_keeps_identity w ts (id : string) (data : value) :
  tasks w = VDict ts ->
  let w' := snd (serve dumps (UpdateTask id data) w) in
  comments w' = comments w
  /\ exists ts',
       tasks w' = VDict ts'
       /\ same_identity ["id"; "created_at"] ts ts'
       /\ (forall k, k <> id -> dict_get k ts' = dict_get k ts).
Proof.
  intros Hts w'. subst w'. unfold serve, dispatch, update_task.
  all_paths_on Hts Hts;
    rewrite ?after_save_comments, ?after_save_tasks; simpl; rewrite ?Hts;
    (split; [reflexivity|]); eexists; (split; [reflexivity|]);
    (split; [identity_kept | others_kept]).
Qed.

(** X14. Whatever the payload and however the handler ends, updating a
    comment adds and removes no comment, keeps their order, leaves every
    other comment and all tasks as they are, and never changes the [id],
    the [task_id] or the [created_at] of the comment it addresses: a
    comment cannot be moved to another task. *)
Theorem update_comment_keeps_identity w cs (id : string) (data : value) :
  comments w = VDict cs ->
  let w' := snd (serve dumps (UpdateComment id data) w) in
  tasks w' = tasks w
  /\ exists cs',
       comments w' = VDict cs'
       /\ same_identity ["id"; "task_id"; "created_at"] cs cs'
       /\ (forall k, k <> id -> dict_get k cs' = dict_get k cs).
Proof.
  intros Hcs w'. subst w'. unfold serve, dispatch, update_comment.
  all_paths_on Hcs Hcs;
    rewrite ?after_save_comments, ?after_save_tasks; simpl; rewrite ?Hcs;
    (split; [reflexivity|]); eexists; (split; [reflexivity|]);
    (split; [identity_kept | others_kept]).
Qed.

End Identity.

(** ** Deleting, creating and then reading *)

Lemma comments_ok_filter (f : string * value -> bool) (cs : list (string * value)) :
  comments_ok cs = true -> comments_ok (filter f cs) = true.
Proof.
  unfold comments_ok. rewrite !andb_true_iff. intros [H1 H2]. split.
  - apply distinct_NoDup. apply dict_keys_filter. now apply distinct_NoDup.
  - now apply forallb_values_filter.
Qed.

Lemma no_comment_left (id : string) (cs : list (string * value)) :
  filter (of_task id)
    (dict_values (filter (fun kc => negb (of_task id (snd kc))) cs)) = [].
Proof.
  unfold dict_values. induction cs as [|[k c] cs IH]; simpl; [reflexivity|].
  destruct (of_task id c) eqn:E; simpl; [assumption|]. now rewrite E.
Qed.

Section ReadBack.
Context {text : Type}.
Variable dumps : value -> text.
Implicit Types (w : world text) (ts cs p : list (string * value)).

(** X15. Deleting a stored comment answers 200 with the deleted record and
    a confirmation, removes that comment and no other, leaves the tasks
    alone, and a following read of the identifier answers 404. *)
Theorem delete_comment_removes_one w cs (id : string) (c : value) :
  comments w = VDict cs ->
  dict_get id cs = Some c ->
  Py.truthy c = true ->
  let w' := after_save dumps (set_comments (VDict (dict_del id cs)) w) in
  serve dumps (DeleteComment id) w
  = (Ok (mkResponse 200 (VDict [("message", VStr "Comment deleted successfully");
                                ("comment", c)])), w')
  /\ tasks w' = tasks w
  /\ comments w' = VDict (dict_del id cs)
  /\ (forall k, k <> id -> dict_get k (dict_del id cs) = dict_get k cs)
  /\ serve dumps (GetComment id) w'
     = (Ok (mkResponse 404 (error "Comment not found")), w').
Proof.
  intros Hcs Hid Hc w'. subst w'. unfold serve, dispatch.
  split.
  { unfold delete_comment.
    run_with ltac:(rewrite ?Hcs, ?Hid, ?Hc, ?save_data_run). reflexivity. }
  split; [now rewrite after_save_tasks|].
  split; [now rewrite after_save_comments|].
  split; [intros k Hk; apply dict_get_del_ne; congruence|].
  unfold get_comment.
  run_with ltac:(rewrite ?after_save_comments, ?dict_get_del_eq). reflexivity.
Qed.

(** X16. Once a task of a well-formed store is deleted, reading it answers
    404 and listing its comments answers 200 with an empty list and a count
    of zero. *)
Theorem deleted_task_is_gone w ts cs (id : string) (task : value) :
  tasks w = VDict ts ->
  comments w = VDict cs ->
  comments_ok cs = true ->
  dict_get id ts = Some task ->
  Py.truthy task = true ->
  let w' := snd (serve dumps (DeleteTask id) w) in
  serve dumps (GetTask id) w'
  = (Ok (mkResponse 404 (error "Task not found")), w')
  /\ serve dumps (GetComments id) w'
     = (Ok (mkResponse 200 (VDict [("task_id", VStr id);
                                   ("comments", VList []);
                                   ("count", VInt 0)])), w').
Proof.
  intros Hts Hcs Hok Hid Ht w'. subst w'. unfold serve, dispatch.
  rewrite (delete_task_run dumps w ts cs id task Hts Hcs Hok Hid Ht). simpl.
  split.
  - unfold get_task.
    run_with ltac:(rewrite ?after_save_tasks, ?dict_get_del_eq). reflexivity.
  - match goal with
    | |- view _ ?W = _ =>
        destruct (get_comments_run W
                    (filter (fun kc => negb (of_task id (snd kc))) cs) id)
          as [l [Hsort Hrun]];
        [ now rewrite after_save_comments
        | now apply comments_ok_filter
        | rewrite Hrun ]
    end.
    rewrite no_comment_left in Hsort. injection Hsort as <-. reflexivity.
Qed.

(** X17. A comment created with a fresh identifier in a well-formed store
    keeps its content exactly as sent, surrounding blanks included, and
    takes the author given or "Anonymous".  A following read of the
    identifier returns the record of the 201 response, and the listing of
    its task contains it and counts one comment more than before. *)
Theorem created_comment_can_be_read w cs (task_id : string) p (s : string) :
  comments w = VDict cs ->
  comments_ok cs = true ->
  dict_get "content" p = Some (VStr s) ->
  Py.str_strip s <> EmptyString ->
  dict_get (uuid_source (host w) (drawn w)) cs = None ->
  exists comment w' l,
    serve dumps (CreateComment task_id (VDict p)) w
    = (Ok (mkResponse 201 comment), w')
    /\ field "content" comment = Some (VStr s)
    /\ field "author" comment
       = Some (match dict_get "author" p with Some a => a | None => VStr "Anonymous" end)
    /\ serve dumps (GetComment (uuid_source (host w) (drawn w))) w'
       = (Ok (mkResponse 200 comment), w')
    /\ serve dumps (GetComments task_id) w'
       = (Ok (mkResponse 200
                (VDict [("task_id", VStr task_id);
                        ("comments", VList l);
                        ("count",
                         VInt (Z.of_nat
                                 (S (List.length
                                       (filter (of_task task_id) (dict_values cs))))))])),
          w')
    /\ In comment l.
Proof.
  intros Hcs Hok Hcontent Hstrip Hfresh.
  pose proof (create_comment_run dumps w cs task_id p s Hcs Hcontent Hstrip) as Hrun.
  cbv zeta in Hrun. unfold serve, dispatch.
  set (cid := uuid_source (host w) (drawn w)) in *.
  set (comment := VDict [("id", VStr cid); ("task_id", VStr task_id);
                         ("content", VStr s);
                         ("author",
                          match dict_get "author" p with
                          | Some a => a
                          | None => VStr "Anonymous"
                          end);
                         ("created_at", VStr (clock (host w) (ticks w)));
                         ("updated_at", VStr (clock (host w) (S (ticks w))))]) in *.
  set (w' := after_save dumps
               (set_comments (VDict (dict_set cid comment cs)) (tick (tick (draw w)))))
    in *.
  assert (Hmine : of_task task_id comment = true).
  { unfold of_task, comment. simpl. apply String.eqb_refl. }
  assert (Hok' : comments_ok (dict_set cid comment cs) = true).
  { apply comments_ok_set; [reflexivity | assumption]. }
  assert (Hcs' : comments w' = VDict (dict_set cid comment cs)).
  { unfold w'. now rewrite after_save_comments. }
  destruct (get_comments_run w' (dict_set cid comment cs) task_id Hcs' Hok')
    as [l [Hsort Hlist]].
  assert (Hsel : Forall (fun c => comment_ok c = true)
                   (filter (of_task task_id) (dict_values (dict_set cid comment cs)))).
  { apply Forall_forall. intros c Hc. apply filter_In in Hc.
    now apply (comments_ok_values (dict_set cid comment cs)). }
  destruct (sort_by_created_at _ Hsel) as [l0 [Hsort0 [Hperm _]]].
  rewrite Hsort in Hsort0. injection Hsort0 as <-.
  rewrite dict_values_set_absent, filter_app in Hperm by assumption.
  simpl in Hperm. rewrite Hmine in Hperm.
  exists comment, w', l. split; [exact Hrun|].
  split; [reflexivity|]. split; [reflexivity|].
  split.
  { unfold get_comment. run_with ltac:(rewrite ?Hcs', ?dict_get_set_eq). reflexivity. }
  split.
  { rewrite Hlist. rewrite <- (Permutation_length Hperm), length_app. simpl.
    now rewrite Nat.add_1_r. }
  apply (Permutation_in _ Hperm). apply in_or_app. right. now left.
Qed.

(** X18. In the listing of a task, comments with the same [created_at]
    appear in the order in which the dictionary holds them, that is, in the
    order of their creation. *)
Theorem listing_keeps_ties_in_order w cs (id : string) :
  comments w = VDict cs ->
  comments_ok cs = true ->
  exists l,
    serve dumps (GetComments id) w
    = (Ok (mkResponse 200 (VDict [("task_id", VStr id);
                                  ("comments", VList l);
                                  ("count", VInt (Z.of_nat (List.length l)))])), w)
    /\ forall k, filter (created_at_is k) l
                 = filter (created_at_is k) (filter (of_task id) (dict_values cs)).
Proof.
  intros Hcs Hok.
  destruct (get_comments_run w cs id Hcs Hok) as [l [Hsort Hrun]].
  exists l. split; [exact Hrun|].
  intros k. apply sort_by_created_at_stable; [|exact Hsort].
  apply Forall_forall. intros c Hc. apply filter_In in Hc.
  now apply (comments_ok_values cs).
Qed.

End ReadBack.

(** ** Persistence across the life of a deployment *)

Section Durability.
Context {text : Type}.
Variable dumps : value -> text.
Variable loads : text -> option value.
Implicit Types (w : world text) (rq : request) (ts cs : list (string * value)).

(** X19. [load_data] never raises and never touches the file.  Without a
    file the two dictionaries are left as they are.  With a file they are
    either both emptied, or both taken from the object the file holds, a
    missing collection counting as empty: the store is never half loaded. *)
Theorem load_data_is_all_or_nothing w :
  exists w',
    load_data loads w = (Next tt, w')
    /\ data_file w' = data_file w
    /\ match data_file w with
       | None => tasks w' = tasks w /\ comments w' = comments w
       | Some t =>
           (tasks w' = VDict [] /\ comments w' = VDict [])
           \/ (readable (host w) = true
               /\ exists d,
                    loads t = Some (VDict d)
                    /\ tasks w'
                       = match dict_get "tasks" d with Some v => v | None => VDict [] end
                    /\ comments w'
                       = match dict_get "comments" d with Some v => v | None => VDict [] end)
       end.
Proof.
  unfold load_data, try_except.
  destruct (data_file w) as [t|] eqn:Hf.
  - step. rewrite Hf.
    destruct (readable (host w)) eqn:Hr; simpl;
      [|eexists; split; [reflexivity|]; split; [exact Hf|]; left; split; reflexivity].
    destruct (loads t) as [[| | | | |d]|] eqn:Hl; simpl;
      try (eexists; split; [reflexivity|]; split; [exact Hf|];
           left; split; reflexivity).
    destruct (dict_get "tasks" d) as [vt|] eqn:Ht;
      destruct (dict_get "comments" d) as [vc|] eqn:Hc; simpl;
      try destruct vt; try destruct vc; simpl;
      (eexists; split; [reflexivity|]; split; [exact Hf|]);
      first [ left; split; reflexivity
            | right; split; [reflexivity|]; exists d;
              split; [reflexivity|]; rewrite ?Ht, ?Hc; split; reflexivity ].
  - step. rewrite Hf. simpl. eexists. split; [reflexivity|].
    split; [exact Hf|]. split; reflexivity.
Qed.

(** *** Helpers on the file *)


Lemma request_keeps_store_ok rq w :
  store_ok w = true -> store_ok (snd (serve dumps rq w)) = true.
Proof.
  intros H. unfold serve.
  destruct rq as [|data|id|id data|id|id data|id|id|id data|id|];
    cbv beta iota delta [dispatch];
    try (destruct (handlers_keep_store_ok dumps w id data H)
           as (H1 & H2 & H3 & H4 & H5 & H6 & H7 & H8 & H9 & H10 & H11);
         assumption);
    try (destruct (handlers_keep_store_ok dumps w "" data H)
           as (H1 & H2 & H3 & H4 & H5 & H6 & H7 & H8 & H9 & H10 & H11);
         assumption);
    try (destruct (handlers_keep_store_ok dumps w id VNone H)
           as (H1 & H2 & H3 & H4 & H5 & H6 & H7 & H8 & H9 & H10 & H11);
         assumption);
    destruct (handlers_keep_store_ok dumps w "" VNone H)
      as (H1 & H2 & H3 & H4 & H5 & H6 & H7 & H8 & H9 & H10 & H11);
    assumption.
Qed.

(** Starting again from a file that is in step with two dictionaries. *)
Lemma restart_from_dump w ts cs :
  (forall v, loads (dumps v) = Some v) ->
  readable (host w) = true ->
  data_file w = Some (dumps (VDict [("tasks", VDict ts); ("comments", VDict cs)])) ->
  tasks (restart loads w) = VDict ts
  /\ comments (restart loads w) = VDict cs
  /\ data_file (restart loads w) = data_file w.
Proof.
  intros Hcodec Hr Hf. unfold restart, load_data, try_except.
  run_with ltac:(rewrite ?Hf, ?Hr, ?Hcodec). auto.
Qed.

(** X20. What a route other than [GET] answered with 200 or 201 survives a
    restart: on a host whose file can be written and read, a process
    started afterwards has exactly the two dictionaries the old process
    had when it answered. *)
Theorem acknowledged_writes_survive_restart rq w (r : response) w' :
  (forall v, loads (dumps v) = Some v) ->
  store_ok w = true ->
  writable (host w) = true ->
  readable (host w) = true ->
  is_read rq = false ->
  serve dumps rq w = (Ok r, w') ->
  (status r < 400)%Z ->
  tasks (restart loads w') = tasks w'
  /\ comments (restart loads w') = comments w'.
Proof.
  intros Hcodec Hok Hw Hr Hrq Hrun Hs.
  assert (Hsync : in_sync dumps w' /\ host w' = host w).
  { revert Hrq Hrun Hs. clear Hok.
    open_request rq; try discriminate; intros _; all_paths;
      intros [= <- <-] || discriminate; simpl; intros Hs; try lia;
      (split;
       [ unfold in_sync; rewrite after_save_tasks, after_save_comments;
         apply after_save_file; simpl in *; congruence
       | unfold after_save; simpl in *;
         match goal with
         | |- context [writable ?h] => replace (writable h) with true by congruence
         end; simpl in *; congruence ]). }
  destruct Hsync as [Hsync Hhost].
  pose proof (request_keeps_store_ok rq w Hok) as Hok'.
  rewrite Hrun in Hok'. simpl in Hok'.
  destruct (store_ok_inv w' Hok') as [ts [cs [Hts [Hcs _]]]].
  unfold in_sync in Hsync. rewrite Hts, Hcs in Hsync.
  destruct (restart_from_dump w' ts cs Hcodec) as [H1 [H2 _]];
    [congruence | exact Hsync |].
  now rewrite H1, H2, Hts, Hcs.
Qed.

(** *** The invariant of a deployment *)




End Durability.

(** ** The service on sample data *)

Lemma responses_have_a_known_shape_witness :
  let rq := GetTask "T9" in
  let r := mkResponse 404 (error "Task not found") in
  (status r = 200%Z /\ is_create rq = false)
  \/ (status r = 201%Z /\ is_create rq = true)
  \/ (status r = 400%Z
      /\ exists msg, body r = error msg /\ In msg validation_messages)
  \/ (status r = 404%Z
      /\ exists msg, body r = error msg /\ In msg not_found_messages).
Proof.
  apply (responses_have_a_known_shape Sample.dumps (GetTask "T9") Sample.busy
           (mkResponse 404 (error "Task not found")) Sample.busy).
  reflexivity.
Defined.

Lemma error_responses_have_no_effect_witness :
  snd (serve Sample.dumps
         (UpdateTask "T1" (VDict [("title", VStr "  "); ("description", VStr "x")]))
         Sample.busy) = Sample.busy.
Proof.
  apply (error_responses_have_no_effect Sample.dumps
           (UpdateTask "T1" (VDict [("title", VStr "  "); ("description", VStr "x")]))
           Sample.busy (mkResponse 400 (error "Title cannot be empty"))).
  - reflexivity.
  - simpl. lia.
Defined.

Lemma reads_never_write_witness :
  let w' := snd (serve Sample.dumps (GetComments "T1") Sample.busy) in
  tasks w' = tasks Sample.busy /\ comments w' = comments Sample.busy
  /\ data_file w' = data_file Sample.busy /\ stdout w' = stdout Sample.busy
  /\ drawn w' = drawn Sample.busy /\ ticks w' = ticks Sample.busy.
Proof.
  apply (reads_never_write Sample.dumps (GetComments "T1") Sample.busy).
  reflexivity.
Defined.

Lemma successful_writes_reach_the_file_witness :
  in_sync Sample.dumps
    (snd (serve Sample.dumps (CreateTask (VDict [("title", VStr "New")])) Sample.busy)).
Proof.
  eapply (successful_writes_reach_the_file Sample.dumps
            (CreateTask (VDict [("title", VStr "New")])) Sample.busy).
  - reflexivity.
  - reflexivity.
  - reflexivity.
  - simpl. lia.
Defined.




Lemma create_requires_its_field_witness :
  serve Sample.dumps (CreateTask (VDict [("author", VStr "me")])) Sample.busy
  = (Ok (mkResponse 400 (error "Title is required")), Sample.busy)
  /\ serve Sample.dumps (CreateComment "T1" (VDict [("author", VStr "me")])) Sample.busy
     = (Ok (mkResponse 400 (error "Content is required")), Sample.busy).
Proof.
  destruct (create_requires_its_field Sample.dumps Sample.busy "T1"
              (VDict [("author", VStr "me")])) as [H1 H2].
  split; [apply H1 | apply H2]; reflexivity.
Defined.

Lemma blank_text_is_refused_witness :
  serve Sample.dumps
    (CreateComment "T1" (VDict [("title", VStr "   "); ("content", VStr "   ");
                                ("description", VStr "new")])) Sample.busy
  = (Ok (mkResponse 400 (error "Content cannot be empty")), Sample.busy)
  /\ serve Sample.dumps
       (UpdateTask "T1" (VDict [("title", VStr "   "); ("content", VStr "   ");
                                ("description", VStr "new")])) Sample.busy
     = (Ok (mkResponse 400 (error "Title cannot be empty")), Sample.busy).
Proof.
  destruct (blank_text_is_refused Sample.dumps Sample.busy "T1" "   "
              [("title", VStr "   "); ("content", VStr "   ");
               ("description", VStr "new")] eq_refl) as [H1 [H2 _]].
  split.
  - apply H1. reflexivity.
  - apply (H2 [("T1", Sample.a_task)] Sample.a_task); reflexivity.
Defined.

Lemma empty_update_is_refused_witness :
  serve Sample.dumps (UpdateTask "T1" (VDict [])) Sample.busy
  = (Ok (mkResponse 400 (error "No data provided")), Sample.busy)
  /\ serve Sample.dumps (UpdateComment "C1" (VDict [])) Sample.busy
     = (Ok (mkResponse 400 (error "No data provided")), Sample.busy).
Proof.
  split.
  - destruct (empty_update_is_refused Sample.dumps Sample.busy "T1" (VDict []) eq_refl)
      as [H _].
    apply (H [("T1", Sample.a_task)] Sample.a_task); reflexivity.
  - destruct (empty_update_is_refused Sample.dumps Sample.busy "C1" (VDict []) eq_refl)
      as [_ H].
    apply (H Sample.some_comments
             (Sample.comment "C1" "T1" "first" "2024-04-30T09:00:00+00:00"));
      reflexivity.
Defined.

Lemma created_task_can_be_read_witness :
  exists task w',
    serve Sample.dumps (CreateTask (VDict [("title", VStr "New")])) Sample.busy
    = (Ok (mkResponse 201 task), w')
    /\ field "description" task = Some (VStr "")
    /\ serve Sample.dumps (GetTask "id-a") w' = (Ok (mkResponse 200 task), w')
    /\ serve Sample.dumps GetAllTasks w'
       = (Ok (mkResponse 200 (VList [Sample.a_task; task])), w').
Proof.
  destruct (created_task_can_be_read Sample.dumps Sample.busy
              [("T1", Sample.a_task)] [("title", VStr "New")] (VStr "New")
              eq_refl eq_refl eq_refl)
    as [task [w' [Hrun [_ [_ [Hd [_ [Hget [Hall _]]]]]]]]].
  exists task, w'. repeat split; assumption.
Defined.

Lemma update_task_replaces_given_fields_witness :
  exists task w',
    serve Sample.dumps (UpdateTask "T1" (VDict [("title", VStr "Plan"); ("x", VNone)]))
      Sample.busy = (Ok (mkResponse 200 task), w')
    /\ field "title" task = Some (VStr "Plan")
    /\ field "description" task = Some (VStr "draft")
    /\ serve Sample.dumps (GetTask "T1") w' = (Ok (mkResponse 200 task), w').
Proof.
  destruct (update_task_replaces_given_fields Sample.dumps Sample.busy
              [("T1", Sample.a_task)] "T1"
              [("id", VStr "T1"); ("title", VStr "Write report");
               ("description", VStr "draft");
               ("created_at", VStr "2024-04-30T08:00:00+00:00")]
              [("title", VStr "Plan"); ("x", VNone)] eq_refl eq_refl)
    as [task [w' [ts' [Hrun [_ [_ [Ht [Hd [_ [_ Hget]]]]]]]]]].
  - discriminate.
  - discriminate.
  - exists "Plan". split; [reflexivity | discriminate].
  - exists task, w'. repeat split; assumption.
Defined.

Lemma update_task_keeps_identity_witness :
  let w' := snd (serve Sample.dumps
                   (UpdateTask "T1" (VDict [("id", VStr "other"); ("title", VStr "Plan")]))
                   Sample.busy) in
  comments w' = comments Sample.busy
  /\ exists ts',
       tasks w' = VDict ts'
       /\ same_identity ["id"; "created_at"] [("T1", Sample.a_task)] ts'
       /\ (forall k, k <> "T1" -> dict_get k ts' = dict_get k [("T1", Sample.a_task)]).
Proof.
  apply (update_task_keeps_identity Sample.dumps Sample.busy [("T1", Sample.a_task)]
           "T1" (VDict [("id", VStr "other"); ("title", VStr "Plan")])).
  reflexivity.
Defined.

Lemma update_comment_keeps_identity_witness :
  let w' := snd (serve Sample.dumps
                   (UpdateComment "C1"
                      (VDict [("task_id", VStr "T2"); ("content", VStr "moved?")]))
                   Sample.busy) in
  tasks w' = tasks Sample.busy
  /\ exists cs',
       comments w' = VDict cs'
       /\ same_identity ["id"; "task_id"; "created_at"] Sample.some_comments cs'
       /\ (forall k, k <> "C1" -> dict_get k cs' = dict_get k Sample.some_comments).
Proof.
  apply (update_comment_keeps_identity Sample.dumps Sample.busy Sample.some_comments
           "C1" (VDict [("task_id", VStr "T2"); ("content", VStr "moved?")])).
  reflexivity.
Defined.

Lemma delete_comment_removes_one_witness :
  fst (serve Sample.dumps (DeleteComment "C2") Sample.busy)
  = Ok (mkResponse 200
          (VDict [("message", VStr "Comment deleted successfully");
                  ("comment",
                   Sample.comment "C2" "T2" "elsewhere" "2024-04-30T09:30:00+00:00")]))
  /\ serve Sample.dumps (GetComment "C2")
       (snd (serve Sample.dumps (DeleteComment "C2") Sample.busy))
     = (Ok (mkResponse 404 (error "Comment not found")),
        snd (serve Sample.dumps (DeleteComment "C2") Sample.busy)).
Proof.
  destruct (delete_comment_removes_one Sample.dumps Sample.busy Sample.some_comments
              "C2" (Sample.comment "C2" "T2" "elsewhere" "2024-04-30T09:30:00+00:00")
              eq_refl eq_refl eq_refl) as [Hrun [_ [_ [_ Hget]]]].
  rewrite Hrun. split; [reflexivity | exact Hget].
Defined.

Lemma deleted_task_is_gone_witness :
  let w' := snd (serve Sample.dumps (DeleteTask "T1") Sample.busy) in
  serve Sample.dumps (GetTask "T1") w'
  = (Ok (mkResponse 404 (error "Task not found")), w')
  /\ serve Sample.dumps (GetComments "T1") w'
     = (Ok (mkResponse 200 (VDict [("task_id", VStr "T1");
                                   ("comments", VList []);
                                   ("count", VInt 0)])), w').
Proof.
  apply (deleted_task_is_gone Sample.dumps Sample.busy [("T1", Sample.a_task)]
           Sample.some_comments "T1" Sample.a_task); reflexivity.
Defined.

Lemma created_comment_can_be_read_witness :
  exists comment w' l,
    serve Sample.dumps (CreateComment "T1" (VDict [("content", VStr " padded ")]))
      Sample.busy = (Ok (mkResponse 201 comment), w')
    /\ field "content" comment = Some (VStr " padded ")
    /\ field "author" comment = Some (VStr "Anonymous")
    /\ serve Sample.dumps (GetComment "id-a") w' = (Ok (mkResponse 200 comment), w')
    /\ serve Sample.dumps (GetComments "T1") w'
       = (Ok (mkResponse 200 (VDict [("task_id", VStr "T1");
                                     ("comments", VList l);
                                     ("count", VInt 3)])), w')
    /\ In comment l.
Proof.
  apply (created_comment_can_be_read Sample.dumps Sample.busy Sample.some_comments
           "T1" [("content", VStr " padded ")] " padded "); try reflexivity.
  discriminate.
Defined.

Lemma listing_keeps_ties_in_order_witness :
  exists l,
    serve Sample.dumps (GetComments "T1") Sample.busy
    = (Ok (mkResponse 200 (VDict [("task_id", VStr "T1");
                                  ("comments", VList l);
                                  ("count", VInt (Z.of_nat (List.length l)))])),
       Sample.busy)
    /\ forall k, filter (created_at_is k) l
                 = filter (created_at_is k)
                     (filter (of_task "T1") (dict_values Sample.some_comments)).
Proof.
  apply (listing_keeps_ties_in_order Sample.dumps Sample.busy Sample.some_comments
           "T1"); reflexivity.
Defined.

Lemma acknowledged_writes_survive_restart_witness :
  let w' := snd (serve Sample.dumps (DeleteTask "T1") Sample.busy) in
  tasks (restart Sample.loads w') = tasks w'
  /\ comments (restart Sample.loads w') = comments w'.
Proof.
  eapply (acknowledged_writes_survive_restart Sample.dumps Sample.loads
            (DeleteTask "T1") Sample.busy).
  - intros v. reflexivity.
  - reflexivity.
  - reflexivity.
  - reflexivity.
  - reflexivity.
  - reflexivity.
  - simpl. lia.
Defined.

